(** * draw3d: a shallow embedding of [Chapter 03/draw3d.py]

    The module is one function, [draw3d], five data-holder classes and the
    generator [extract_vectors_3D].  The embedding follows the source
    statement by statement:

    - a coordinate is a Python number.  Numbers are idealised as exact
      rationals ([Q]); [0.05] is the rational 5/100 and the comparisons
      [<], [>], [!=] are the rational ones.  Two numbers that compare equal
      in Python ([1] and [1.0]) are two [Q]s related by [==], so statements
      about computed numbers are stated up to [==];
    - a vector is a triple of numbers (the glossary's coordinate triple);
    - the objects handed to [draw3d] are the five classes, plus any other
      Python object, which the code can only print;
    - [draw3d] acts on one figure with one 3D axes object.  The calls it
      makes on them are recorded, in order, in a log that is threaded
      through a small state-and-exception monad;
    - the constants [blue], [black] and [red] come from the module
      [colors], which is not part of the sources; they are kept opaque. *)

From Stdlib Require Import QArith Qminmax Lqa List String Bool Arith Lia.
From Stdlib Require Import Permutation.
Import ListNotations.

Open Scope Q_scope.

(* ------------------------------------------------------------------ *)
(** ** Data model *)

Definition number := Q.
Definition vector := (number * number * number)%type.

(** A Matplotlib colour: one of the names exported by [colors], or a
    literal colour string such as ['gray'] or ['k']. *)
Inductive color : Type :=
| blue
| black
| red
| mpl (name : string).

(** The five classes; each constructor lists the attributes that
    [__init__] stores.  [Other] stands for an object of any other type,
    given by the text that [str] prints for it. *)
Inductive object : Type :=
| Polygon3D (vertices : list vector) (c : color)
| Points3D (vectors : list vector) (c : color)
| Arrow3D (tip tail : vector) (c : color)
| Segment3D (start_point end_point : vector) (c : color) (linestyle : string)
| Box3D (v : vector)
| Other (repr : string).

(** [isinstance] against one of the five classes. *)
Definition recognized (obj : object) : bool :=
  match obj with
  | Other _ => false
  | _ => true
  end.

Inductive exn : Type :=
| TypeError (msg : string)
| ValueError (msg : string)
| IndexError (msg : string).

Inductive outcome (A : Type) : Type :=
| Return (a : A)
| Raise (e : exn).
Arguments Return {A} a.
Arguments Raise {A} e.

(** The message of line 75 and line 219: [f"Unrecognized object: {obj}"]. *)
Definition unrecognized_object (repr : string) : exn :=
  TypeError ("Unrecognized object: " ++ repr).

(** What unpacking an empty [zip(...)] into three names raises. *)
Definition not_enough_values : exn :=
  ValueError "not enough values to unpack (expected 3, got 0)".

(* ------------------------------------------------------------------ *)
(** ** Vector extraction (lines 56-75) *)

(** The generator is always consumed whole by [list(...)] (line 112), so
    it is modelled by the list it produces, or the exception that ends
    the iteration. *)
Fixpoint extract_vectors_3D (objects : list object) : outcome (list vector) :=
  match objects with
  | [] => Return []
  | obj :: rest =>
      let yield_then (vs : list vector) :=
        match extract_vectors_3D rest with
        | Return ws => Return (vs ++ ws)
        | Raise e => Raise e
        end in
      match obj with
      | Polygon3D vertices _ => yield_then vertices
      | Points3D vectors _ => yield_then vectors
      | Arrow3D tip tail _ => yield_then [tip; tail]
      | Segment3D start_point end_point _ _ => yield_then [start_point; end_point]
      | Box3D v => yield_then [v]
      | Other repr => Raise (unrecognized_object repr)
      end
  end.

(* ------------------------------------------------------------------ *)
(** ** Bounding box (lines 116-134) *)

(** [max(first, *rest)]: the running maximum is replaced by an item that
    is strictly greater.  [min] is symmetric. *)
Definition py_max (first : number) (rest : list number) : number :=
  fold_left (fun m x => match x ?= m with Gt => x | _ => m end) rest first.

Definition py_min (first : number) (rest : list number) : number :=
  fold_left (fun m x => match x ?= m with Lt => x | _ => m end) rest first.

(** [xs, ys, zs = zip( *vectors)]: the three coordinate columns, or the
    unpacking error when there is no vector at all. *)
Definition zip_star (vectors : list vector)
  : outcome (list number * list number * list number) :=
  match vectors with
  | [] => Raise not_enough_values
  | _ => Return (map (fun v => fst (fst v)) vectors,
                 map (fun v => snd (fst v)) vectors,
                 map (fun v => snd v) vectors)
  end.

Definition range := (number * number)%type.

(** Lines 119, 123, 127 and 132 for one axis (the source repeats them for
    x, y and z). *)
Definition plot_range (cs : list number) : range :=
  let max_c := py_max 0 cs in
  let min_c := py_min 0 cs in
  let size := max_c - min_c in
  let padding := if negb (Qeq_bool size 0) then 0.05 * size else 1 in
  (py_min (min_c - padding) [-2], py_max (max_c + padding) [2]).

(** Lines 112-134: the three plot ranges of a call. *)
Definition all_vectors (extracted : list vector) (origin : bool) : list vector :=
  if origin then extracted ++ [(0, 0, 0)] else extracted.

Definition plot_ranges (objects : list object) (origin : bool)
  : outcome (range * range * range) :=
  match extract_vectors_3D objects with
  | Raise e => Raise e
  | Return extracted =>
      match zip_star (all_vectors extracted origin) with
      | Raise e => Raise e
      | Return (xs, ys, zs) =>
          Return (plot_range xs, plot_range ys, plot_range zs)
      end
  end.

(* ------------------------------------------------------------------ *)
(** ** The figure: a log of the calls made on [plt] and [ax] *)

(** One entry per call that [draw3d] makes on the plotting library, with
    the arguments that vary.  [Plot] is [ax.plot] on a two-point line,
    [Quiver] is [ax.quiver] with tail and direction (its other arguments
    are the constants of lines 188-191). *)
Inductive call : Type :=
| Figure (figsize : number * number)
| ViewInit (elev azim : option number)
| SetXlim (lo hi : number)
| SetYlim (lo hi : number)
| SetZlim (lo hi : number)
| SetXlabel (s : string)
| SetYlabel (s : string)
| SetZlabel (s : string)
| Plot (xs ys zs : list number) (c : color) (linestyle : string)
| Scatter (xs ys zs : list number) (c : color)
          (marker : option string) (depthshade : option bool)
| Quiver (tail direction : vector) (c : color)
| SetXticks (ticks : list number)
| SetYticks (ticks : list number)
| SetZticks (ticks : list number)
| Savefig (path : string)
| Show.

(** A computation that appends to the log and may raise.  The log is kept
    when an exception is raised: it shows what had been done by then. *)
Definition M (A : Type) : Type := list call -> outcome A * list call.

Definition ret {A} (a : A) : M A := fun log => (Return a, log).

Definition bind {A B} (m : M A) (k : A -> M B) : M B :=
  fun log =>
    match m log with
    | (Return a, log') => k a log'
    | (Raise e, log') => (Raise e, log')
    end.

Definition raise {A} (e : exn) : M A := fun log => (Raise e, log).

Definition emit (c : call) : M unit := fun log => (Return tt, log ++ [c]).

Definition lift {A} (o : outcome A) : M A := fun log => (o, log).

Definition when (b : bool) (m : M unit) : M unit := if b then m else ret tt.

Declare Scope draw_scope.
Delimit Scope draw_scope with draw.
Notation "x <- m ;; k" := (bind m (fun x => k))
  (at level 61, m at next level, right associativity) : draw_scope.
Notation "m ;; k" := (bind m (fun _ => k))
  (at level 61, right associativity) : draw_scope.
Open Scope draw_scope.

Fixpoint for_each {A} (l : list A) (body : A -> M unit) : M unit :=
  match l with
  | [] => ret tt
  | a :: rest => body a ;; for_each rest body
  end.

(** [seq[i]] on a tuple or list. *)
Definition subscript (vs : list vector) (i : nat) : M vector :=
  match nth_error vs i with
  | Some v => ret v
  | None => raise (IndexError "tuple index out of range")
  end.

(* ------------------------------------------------------------------ *)
(** ** Rendering (lines 145-219) *)

(** [_draw_axis_line] (lines 145-149). *)
Definition _draw_axis_line (start end_ : vector) (c : color)
    (linestyle : string) : M unit :=
  let '(x1, y1, z1) := start in
  let '(x2, y2, z2) := end_ in
  emit (Plot [x1; x2] [y1; y2] [z1; z2] c linestyle).

(** The body of the loop of line 164. *)
Definition draw_object (depthshade : bool) (obj : object) : M unit :=
  match obj with
  | Points3D vectors c =>
      cols <- lift (zip_star vectors) ;;
      let '(xs_pts, ys_pts, zs_pts) := cols in
      emit (Scatter xs_pts ys_pts zs_pts c None (Some depthshade))
  | Polygon3D vertices c =>
      let N := List.length vertices in
      for_each (seq 0 N) (fun i =>
        p1 <- subscript vertices i ;;
        p2 <- subscript vertices ((i + 1) mod N) ;;
        _draw_axis_line p1 p2 c "solid")
  | Arrow3D tip tail c =>
      let '(tx, ty, tz) := tail in
      let '(px, py, pz) := tip in
      emit (Quiver (tx, ty, tz) (px - tx, py - ty, pz - tz) c)
  | Segment3D s e c linestyle =>
      let '(s0, s1, s2) := s in
      let '(e0, e1, e2) := e in
      emit (Plot [s0; e0] [s1; e1] [s2; e2] c linestyle)
  | Box3D (x, y, z) =>
      let line a b := _draw_axis_line a b (mpl "gray") "dashed" in
      line (0, y, 0) (x, y, 0) ;;
      line (0, 0, z) (0, y, z) ;;
      line (0, 0, z) (x, 0, z) ;;
      line (0, y, 0) (0, y, z) ;;
      line (x, 0, 0) (x, y, 0) ;;
      line (x, 0, 0) (x, 0, z) ;;
      line (0, y, z) (x, y, z) ;;
      line (x, 0, z) (x, y, z) ;;
      line (x, y, 0) (x, y, z)
  | Other repr => raise (unrecognized_object repr)
  end.

(* ------------------------------------------------------------------ *)
(** ** [draw3d] (lines 77-238) *)

(** The keyword arguments. *)
Record kwargs : Type := {
  origin : bool;
  axes : bool;
  width : number;
  save_as : option string;
  azim : option number;
  elev : option number;
  xlim : option range;
  ylim : option range;
  zlim : option range;
  xticks : option (list number);
  yticks : option (list number);
  zticks : option (list number);
  depthshade : bool
}.

(** Their default values (lines 78-90). *)
Definition defaults : kwargs := {|
  origin := true; axes := true; width := 6; save_as := None;
  azim := None; elev := None;
  xlim := None; ylim := None; zlim := None;
  xticks := None; yticks := None; zticks := None;
  depthshade := false
|}.

(** A call that passes one keyword argument and leaves the others at
    their values in [kw]. *)
Definition with_origin (b : bool) (kw : kwargs) : kwargs := {|
  origin := b; axes := axes kw; width := width kw; save_as := save_as kw;
  azim := azim kw; elev := elev kw;
  xlim := xlim kw; ylim := ylim kw; zlim := zlim kw;
  xticks := xticks kw; yticks := yticks kw; zticks := zticks kw;
  depthshade := depthshade kw
|}.

Definition with_axes (b : bool) (kw : kwargs) : kwargs := {|
  origin := origin kw; axes := b; width := width kw; save_as := save_as kw;
  azim := azim kw; elev := elev kw;
  xlim := xlim kw; ylim := ylim kw; zlim := zlim kw;
  xticks := xticks kw; yticks := yticks kw; zticks := zticks kw;
  depthshade := depthshade kw
|}.

Definition with_limits (xl yl zl : option range) (kw : kwargs) : kwargs := {|
  origin := origin kw; axes := axes kw; width := width kw; save_as := save_as kw;
  azim := azim kw; elev := elev kw;
  xlim := xl; ylim := yl; zlim := zl;
  xticks := xticks kw; yticks := yticks kw; zticks := zticks kw;
  depthshade := depthshade kw
|}.


Definition is_some {A} (o : option A) : bool :=
  match o with Some _ => true | None => false end.

(** Truth value of [save_as]: [None] and the empty string are false. *)
Definition truthy (s : option string) : bool :=
  match s with
  | Some EmptyString | None => false
  | Some _ => true
  end.

Definition draw3d_body (objects : list object) (kw : kwargs) : M unit :=
  (* 1 *)
  emit (Figure (width kw, width kw)) ;;
  (* 2 *)
  when (is_some (azim kw) || is_some (elev kw))
       (emit (ViewInit (elev kw) (azim kw))) ;;
  (* 3 *)
  extracted <- lift (extract_vectors_3D objects) ;;
  cols <- lift (zip_star (all_vectors extracted (origin kw))) ;;
  let '(xs, ys, zs) := cols in
  (* 4, 5 *)
  let plot_x_range := plot_range xs in
  let plot_y_range := plot_range ys in
  let plot_z_range := plot_range zs in
  emit (SetXlim (fst plot_x_range) (snd plot_x_range)) ;;
  emit (SetYlim (fst plot_y_range) (snd plot_y_range)) ;;
  emit (SetZlim (fst plot_z_range) (snd plot_z_range)) ;;
  emit (SetXlabel "x") ;;
  emit (SetYlabel "y") ;;
  emit (SetZlabel "z") ;;
  (* 6 *)
  when (axes kw)
       (_draw_axis_line (fst plot_x_range, 0, 0) (snd plot_x_range, 0, 0)
                        black "solid" ;;
        _draw_axis_line (0, fst plot_y_range, 0) (0, snd plot_y_range, 0)
                        black "solid" ;;
        _draw_axis_line (0, 0, fst plot_z_range) (0, 0, snd plot_z_range)
                        black "solid") ;;
  (* 7 *)
  when (origin kw) (emit (Scatter [0] [0] [0] (mpl "k") (Some "x"%string) None)) ;;
  (* 8 *)
  for_each objects (draw_object (depthshade kw)) ;;
  (* 9 *)
  match xlim kw, ylim kw, zlim kw with
  | Some xl, Some yl, Some zl =>
      emit (SetXlim (fst xl) (snd xl)) ;;
      emit (SetYlim (fst yl) (snd yl)) ;;
      emit (SetZlim (fst zl) (snd zl))
  | _, _, _ => ret tt
  end ;;
  (* 10 *)
  match xticks kw, yticks kw, zticks kw with
  | Some xt, Some yt, Some zt =>
      emit (SetXticks xt) ;;
      emit (SetYticks yt) ;;
      emit (SetZticks zt)
  | _, _, _ => ret tt
  end ;;
  (* 11 *)
  when (truthy (save_as kw))
       (match save_as kw with Some p => emit (Savefig p) | None => ret tt end) ;;
  (* 12 *)
  emit Show.

(** A call of [draw3d]: how it ends, and the calls it made. *)
Definition draw3d (objects : list object) (kw : kwargs) : outcome unit * list call :=
  draw3d_body objects kw [].

Definition raised (r : outcome unit * list call) : option exn :=
  match fst r with
  | Return _ => None
  | Raise e => Some e
  end.

(** What the axes show at the end: the arguments of the last call that set
    the limits (the ticks) of an axis, if any call did. *)
Definition last_set {A} (setter : call -> option A) (log : list call) : option A :=
  fold_left (fun acc c => match setter c with Some a => Some a | None => acc end)
            log None.

Definition xlim_set (c : call) : option range :=
  match c with SetXlim lo hi => Some (lo, hi) | _ => None end.
Definition ylim_set (c : call) : option range :=
  match c with SetYlim lo hi => Some (lo, hi) | _ => None end.
Definition zlim_set (c : call) : option range :=
  match c with SetZlim lo hi => Some (lo, hi) | _ => None end.

Definition final_xlim := last_set xlim_set.
Definition final_ylim := last_set ylim_set.
Definition final_zlim := last_set zlim_set.

(** The calls that put something on the axes. *)
Definition is_drawing (c : call) : bool :=
  match c with
  | Plot _ _ _ _ _ | Scatter _ _ _ _ _ _ | Quiver _ _ _ => true
  | _ => false
  end.

(** The line segments among the calls, as pairs of end points. *)
Definition segment_of (c : call) : option (vector * vector) :=
  match c with
  | Plot [x1; x2] [y1; y2] [z1; z2] _ _ => Some ((x1, y1, z1), (x2, y2, z2))
  | _ => None
  end.

Fixpoint segments (log : list call) : list (vector * vector) :=
  match log with
  | [] => []
  | c :: rest =>
      match segment_of c with
      | Some s => s :: segments rest
      | None => segments rest
      end
  end.

(* ------------------------------------------------------------------ *)
(** ** Reference definitions used in the statements *)

(** The coordinate triples that an object references, as section 4.1 of
    the specification lists them. *)
Definition coordinates (obj : object) : list vector :=
  match obj with
  | Polygon3D vertices _ => vertices
  | Points3D vectors _ => vectors
  | Arrow3D tip tail _ => [tip; tail]
  | Segment3D start_point end_point _ _ => [start_point; end_point]
  | Box3D v => [v]
  | Other _ => []
  end.

(** The text of the first object that is of none of the five classes. *)
Fixpoint first_unrecognized (objects : list object) : option string :=
  match objects with
  | [] => None
  | Other repr :: _ => Some repr
  | _ :: rest => first_unrecognized rest
  end.

(** A [Points3D] that holds no vector. *)
Definition empty_points (obj : object) : bool :=
  match obj with
  | Points3D [] _ => true
  | _ => false
  end.

Definition is_nil {A} (l : list A) : bool :=
  match l with [] => true | _ => false end.

(** The calls on which unpacking an empty [zip] raises: there is nothing
    to bound, or some [Points3D] has nothing to scatter. *)
Definition unpack_fails (objects : list object) (kw : kwargs) : bool :=
  is_nil (all_vectors (flat_map coordinates objects) (origin kw))
  || existsb empty_points objects.

(** Section 4.2 of the specification, in its words: the minimum and the
    maximum of the coordinates, clamped to include zero; a padding of 5%
    of the extent, or of 1 when the extent is zero; the interval widened
    to span at least [-2, 2]. *)
Definition spec_range (cs : list number) : range :=
  let lo := Qmin 0 (fold_right Qmin 0 cs) in
  let hi := Qmax 0 (fold_right Qmax 0 cs) in
  let extent := hi - lo in
  let padding := if Qeq_bool extent 0 then 1 else (5 # 100) * extent in
  (Qmin (lo - padding) (-2), Qmax (hi + padding) 2).

Definition range_eq (r r' : range) : Prop :=
  fst r == fst r' /\ snd r == snd r'.

(** Two results of the bounding-box computation agree: the same exception,
    or ranges with equal bounds. *)
Definition same_ranges (o o' : outcome (range * range * range)) : Prop :=
  match o, o' with
  | Return (rx, ry, rz), Return (rx', ry', rz') =>
      range_eq rx rx' /\ range_eq ry ry' /\ range_eq rz rz'
  | Raise e, Raise e' => e = e'
  | _, _ => False
  end.

Definition within (r : range) (c : number) : Prop :=
  fst r <= c /\ c <= snd r.

Definition xcoord (v : vector) : number := fst (fst v).
Definition ycoord (v : vector) : number := snd (fst v).
Definition zcoord (v : vector) : number := snd v.

(** The edge that [draw3d] draws between two vertices of a polygon. *)
Definition edge (c : color) (p : vector * vector) : call :=
  Plot [xcoord (fst p); xcoord (snd p)]
       [ycoord (fst p); ycoord (snd p)]
       [zcoord (fst p); zcoord (snd p)] c "solid".

(** The twelve edges of the box spanned by the origin and [(x, y, z)]:
    four along each axis. *)
Definition box_edges (x y z : number) : list (vector * vector) :=
  [ ((0, 0, 0), (x, 0, 0)); ((0, y, 0), (x, y, 0));
    ((0, 0, z), (x, 0, z)); ((0, y, z), (x, y, z));
    ((0, 0, 0), (0, y, 0)); ((x, 0, 0), (x, y, 0));
    ((0, 0, z), (0, y, z)); ((x, 0, z), (x, y, z));
    ((0, 0, 0), (0, 0, z)); ((x, 0, 0), (x, 0, z));
    ((0, y, 0), (0, y, z)); ((x, y, 0), (x, y, z)) ].

Definition vector_eqb (v w : vector) : bool :=
  Qeq_bool (xcoord v) (xcoord w) && Qeq_bool (ycoord v) (ycoord w)
  && Qeq_bool (zcoord v) (zcoord w).

(** The same segment, in either direction. *)
Definition segment_eqb (s t : vector * vector) : bool :=
  (vector_eqb (fst s) (fst t) && vector_eqb (snd s) (snd t))
  || (vector_eqb (fst s) (snd t) && vector_eqb (snd s) (fst t)).

Definition drawn (s : vector * vector) (l : list (vector * vector)) : bool :=
  existsb (segment_eqb s) l.

Definition touches (v : vector) (s : vector * vector) : bool :=
  vector_eqb v (fst s) || vector_eqb v (snd s).

(** The pieces of the log of a call, in the order of the source. *)
Definition view_calls (kw : kwargs) : list call :=
  if is_some (azim kw) || is_some (elev kw)
  then [ViewInit (elev kw) (azim kw)] else [].

Definition setup_calls (kw : kwargs) : list call :=
  Figure (width kw, width kw) :: view_calls kw.

Definition range_calls (rx ry rz : range) : list call :=
  [SetXlim (fst rx) (snd rx); SetYlim (fst ry) (snd ry);
   SetZlim (fst rz) (snd rz); SetXlabel "x"; SetYlabel "y"; SetZlabel "z"].

Definition axes_calls (kw : kwargs) (rx ry rz : range) : list call :=
  if axes kw
  then [Plot [fst rx; snd rx] [0; 0] [0; 0] black "solid";
        Plot [0; 0] [fst ry; snd ry] [0; 0] black "solid";
        Plot [0; 0] [0; 0] [fst rz; snd rz] black "solid"]
  else [].

Definition origin_calls (kw : kwargs) : list call :=
  if origin kw then [Scatter [0] [0] [0] (mpl "k") (Some "x"%string) None] else [].

Definition limit_calls (kw : kwargs) : list call :=
  match xlim kw, ylim kw, zlim kw with
  | Some xl, Some yl, Some zl =>
      [SetXlim (fst xl) (snd xl); SetYlim (fst yl) (snd yl);
       SetZlim (fst zl) (snd zl)]
  | _, _, _ => []
  end.

Definition tick_calls (kw : kwargs) : list call :=
  match xticks kw, yticks kw, zticks kw with
  | Some xt, Some yt, Some zt => [SetXticks xt; SetYticks yt; SetZticks zt]
  | _, _, _ => []
  end.

Definition save_calls (kw : kwargs) : list call :=
  match save_as kw with
  | Some p => if truthy (Some p) then [Savefig p] else []
  | None => []
  end.

(** A computation whose effect on the log is to append the calls it makes
    when started on the empty log. *)
Definition uniform {A} (m : M A) : Prop :=
  forall log, m log = (fst (m []), log ++ snd (m [])).

(** The calls that set the limits or the ticks of an axis. *)
Definition sets_axes (c : call) : bool :=
  match c with
  | SetXlim _ _ | SetYlim _ _ | SetZlim _ _
  | SetXticks _ | SetYticks _ | SetZticks _ => true
  | _ => false
  end.

(** The nine segments that lines 208-216 draw for [Box3D(x, y, z)]. *)
Definition box_segments (x y z : number) : list (vector * vector) :=
  [ ((0, y, 0), (x, y, 0)); ((0, 0, z), (0, y, z)); ((0, 0, z), (x, 0, z));
    ((0, y, 0), (0, y, z)); ((x, 0, 0), (x, y, 0)); ((x, 0, 0), (x, 0, z));
    ((0, y, z), (x, y, z)); ((x, 0, z), (x, y, z)); ((x, y, 0), (x, y, z)) ].

Definition dashed_gray (p : vector * vector) : call :=
  Plot [xcoord (fst p); xcoord (snd p)]
       [ycoord (fst p); ycoord (snd p)]
       [zcoord (fst p); zcoord (snd p)] (mpl "gray") "dashed".

(** A step that cannot fail and appends the calls [cs]. *)
Definition emits (m : M unit) (cs : list call) : Prop :=
  forall log, m log = (Return tt, log ++ cs).

(** The vertex pairs joined by the loop of lines 173-176: vertex [i] and
    vertex [(i + 1) % N]. *)
Definition polygon_edges (vertices : list vector) : list (vector * vector) :=
  let N := List.length vertices in
  map (fun i => (nth i vertices (0, 0, 0), nth ((i + 1) mod N) vertices (0, 0, 0)))
      (seq 0 N).

(* ------------------------------------------------------------------ *)
(** ** The constructors (lines 18-53) *)

(** A keyword argument that was not passed takes its default. *)
Definition keyword {A} (passed : option A) (default : A) : A :=
  match passed with Some a => a | None => default end.

Definition Polygon3D_init (vertices : list vector) (c : option color) : object :=
  Polygon3D vertices (keyword c blue).

Definition Points3D_init (vectors : list vector) (c : option color) : object :=
  Points3D vectors (keyword c black).


Definition Segment3D_init (start_point end_point : vector) (c : option color)
    (linestyle : option string) : object :=
  Segment3D start_point end_point (keyword c blue) (keyword linestyle "solid"%string).

Definition Box3D_init (x y z : number) : object := Box3D (x, y, z).

(* ------------------------------------------------------------------ *)
(** ** Further reference definitions *)

(** The drawing loop of line 164, started on an empty log. *)
Definition draw_loop (d : bool) (objects : list object) : outcome unit * list call :=
  for_each objects (draw_object d) [].

(** The number of drawing calls that an object takes. *)
Definition drawing_count (obj : object) : nat :=
  match obj with
  | Polygon3D vertices _ => List.length vertices
  | Points3D _ _ => 1
  | Arrow3D _ _ _ => 1
  | Segment3D _ _ _ _ => 1
  | Box3D _ => 9
  | Other _ => 0
  end.

(** The calls of steps 11 and 12. *)
Definition shows_or_saves (c : call) : bool :=
  match c with
  | Savefig _ | Show => true
  | _ => false
  end.


(** Two vectors with equal coordinates. *)
Definition vector_eq (v w : vector) : Prop :=
  xcoord v == xcoord w /\ ycoord v == ycoord w /\ zcoord v == zcoord w.

Definition vector_add (v w : vector) : vector :=
  (xcoord v + xcoord w, ycoord v + ycoord w, zcoord v + zcoord w).

(** The points that a drawing call places on the axes: the two ends of a
    line, the points of a scatter, the tail and the head of a quiver. *)
Definition drawn_points (c : call) : list vector :=
  match c with
  | Plot xs ys zs _ _ => combine (combine xs ys) zs
  | Scatter xs ys zs _ _ _ => combine (combine xs ys) zs
  | Quiver tail direction _ => [tail; vector_add tail direction]
  | _ => []
  end.

(** A point within the three ranges. *)
Definition inside (rx ry rz : range) (v : vector) : Prop :=
  within rx (xcoord v) /\ within ry (ycoord v) /\ within rz (zcoord v).

(** The mirror image of a range. *)
Definition mirror (r : range) : range := (- snd r, - fst r).

(* ------------------------------------------------------------------ *)
(** ** Extraction: lemmas *)

Lemma first_unrecognized_none objects :
  first_unrecognized objects = None <-> forallb recognized objects = true.
Proof.
  induction objects as [|obj rest IH]; simpl.
  - tauto.
  - destruct obj; simpl; try exact IH.
    split; discriminate.
Qed.

Lemma extract_vectors_3D_unfold objects :
  extract_vectors_3D objects =
    match first_unrecognized objects with
    | Some repr => Raise (unrecognized_object repr)
    | None => Return (flat_map coordinates objects)
    end.
Proof.
  induction objects as [|obj rest IH]; simpl.
  - reflexivity.
  - destruct obj; simpl; rewrite ?IH;
      destruct (first_unrecognized rest); reflexivity.
Qed.


(* ------------------------------------------------------------------ *)
(** ** [max] and [min]: lemmas *)


Lemma py_max_snoc first rest x :
  py_max first (rest ++ [x]) =
    match x ?= py_max first rest with Gt => x | _ => py_max first rest end.
Proof. unfold py_max. rewrite fold_left_app. reflexivity. Qed.

Lemma py_min_snoc first rest x :
  py_min first (rest ++ [x]) =
    match x ?= py_min first rest with Lt => x | _ => py_min first rest end.
Proof. unfold py_min. rewrite fold_left_app. reflexivity. Qed.

Lemma py_max_ge_first rest : forall first, first <= py_max first rest.
Proof.
  induction rest as [|x rest IH]; intros first; simpl.
  - lra.
  - unfold py_max in *; simpl.
    destruct (Qcompare_spec x first) as [E|L|G];
      (eapply Qle_trans; [|apply IH]); lra.
Qed.

Lemma py_min_le_first rest : forall first, py_min first rest <= first.
Proof.
  induction rest as [|x rest IH]; intros first; simpl.
  - unfold py_min; simpl; lra.
  - unfold py_min in *; simpl.
    destruct (Qcompare_spec x first) as [E|L|G];
      (eapply Qle_trans; [apply IH|]); lra.
Qed.

Lemma py_max_ge_in rest : forall first x, In x rest -> x <= py_max first rest.
Proof.
  induction rest as [|y rest IH]; intros first x Hin; [contradiction|].
  destruct Hin as [->|Hin].
  - unfold py_max; simpl.
    destruct (Qcompare_spec x first) as [E|L|G];
      (eapply Qle_trans; [|apply py_max_ge_first]); lra.
  - unfold py_max; simpl. apply IH, Hin.
Qed.

Lemma py_min_le_in rest : forall first x, In x rest -> py_min first rest <= x.
Proof.
  induction rest as [|y rest IH]; intros first x Hin; [contradiction|].
  destruct Hin as [->|Hin].
  - unfold py_min; simpl.
    destruct (Qcompare_spec x first) as [E|L|G];
      (eapply Qle_trans; [apply py_min_le_first|]); lra.
  - unfold py_min; simpl. apply IH, Hin.
Qed.

(** The result is one of the arguments. *)
Lemma py_max_in rest : forall first, In (py_max first rest) (first :: rest).
Proof.
  induction rest as [|y rest IH]; intros first.
  - left; reflexivity.
  - unfold py_max; simpl fold_left.
    destruct (y ?= first);
      match goal with
      | |- In (fold_left _ _ ?a) _ =>
          destruct (IH a) as [E|E]; [rewrite <- E at 1 | right; right; exact E]
      end; simpl; tauto.
Qed.

Lemma py_min_in rest : forall first, In (py_min first rest) (first :: rest).
Proof.
  induction rest as [|y rest IH]; intros first.
  - left; reflexivity.
  - unfold py_min; simpl fold_left.
    destruct (y ?= first);
      match goal with
      | |- In (fold_left _ _ ?a) _ =>
          destruct (IH a) as [E|E]; [rewrite <- E at 1 | right; right; exact E]
      end; simpl; tauto.
Qed.




(** Appending a zero changes neither the maximum nor the minimum taken
    together with zero. *)
Lemma py_max_0_snoc_0 cs : py_max 0 (cs ++ [0]) = py_max 0 cs.
Proof.
  rewrite py_max_snoc.
  pose proof (py_max_ge_first cs 0) as H.
  destruct (Qcompare_spec 0 (py_max 0 cs)); try reflexivity. lra.
Qed.

Lemma py_min_0_snoc_0 cs : py_min 0 (cs ++ [0]) = py_min 0 cs.
Proof.
  rewrite py_min_snoc.
  pose proof (py_min_le_first cs 0) as H.
  destruct (Qcompare_spec 0 (py_min 0 cs)); try reflexivity. lra.
Qed.

(** With two arguments they are the rational maximum and minimum. *)
Lemma py_max_pair a b : py_max a [b] == Qmax a b.
Proof.
  unfold py_max; simpl.
  destruct (Qcompare_spec b a) as [E|L|G].
  - rewrite Q.max_l; lra.
  - rewrite Q.max_l; lra.
  - rewrite Q.max_r; lra.
Qed.

Lemma py_min_pair a b : py_min a [b] == Qmin a b.
Proof.
  unfold py_min; simpl.
  destruct (Qcompare_spec b a) as [E|L|G].
  - rewrite Q.min_l; lra.
  - rewrite Q.min_r; lra.
  - rewrite Q.min_l; lra.
Qed.

Lemma fold_Qmax_bounds cs :
  0 <= fold_right Qmax 0 cs /\ forall x, In x cs -> x <= fold_right Qmax 0 cs.
Proof.
  induction cs as [|c cs [IH0 IH]]; simpl.
  - split; [lra | contradiction].
  - split.
    + eapply Qle_trans; [exact IH0 | apply Q.le_max_r].
    + intros x [->|Hin]; [apply Q.le_max_l|].
      eapply Qle_trans; [apply IH, Hin | apply Q.le_max_r].
Qed.

Lemma fold_Qmin_bounds cs :
  fold_right Qmin 0 cs <= 0 /\ forall x, In x cs -> fold_right Qmin 0 cs <= x.
Proof.
  induction cs as [|c cs [IH0 IH]]; simpl.
  - split; [lra | contradiction].
  - split.
    + eapply Qle_trans; [apply Q.le_min_r | exact IH0].
    + intros x [->|Hin]; [apply Q.le_min_l|].
      eapply Qle_trans; [apply Q.le_min_r | apply IH, Hin].
Qed.

Lemma fold_Qmax_lub cs b :
  0 <= b -> (forall x, In x cs -> x <= b) -> fold_right Qmax 0 cs <= b.
Proof.
  intros H0 H. induction cs as [|c cs IH]; simpl; [exact H0|].
  apply Q.max_lub; [apply H; left; reflexivity|].
  apply IH. intros x Hx. apply H. right; exact Hx.
Qed.

Lemma fold_Qmin_glb cs b :
  b <= 0 -> (forall x, In x cs -> b <= x) -> b <= fold_right Qmin 0 cs.
Proof.
  intros H0 H. induction cs as [|c cs IH]; simpl; [exact H0|].
  apply Q.min_glb; [apply H; left; reflexivity|].
  apply IH. intros x Hx. apply H. right; exact Hx.
Qed.

Lemma py_max_0_spec cs : py_max 0 cs == Qmax 0 (fold_right Qmax 0 cs).
Proof.
  destruct (fold_Qmax_bounds cs) as [H0 Hin].
  rewrite Q.max_r by exact H0.
  apply Qle_antisym.
  - destruct (py_max_in cs 0) as [E|E].
    + rewrite <- E. exact H0.
    + apply Hin, E.
  - apply fold_Qmax_lub; [apply py_max_ge_first|].
    intros x Hx. apply py_max_ge_in, Hx.
Qed.

Lemma py_min_0_spec cs : py_min 0 cs == Qmin 0 (fold_right Qmin 0 cs).
Proof.
  destruct (fold_Qmin_bounds cs) as [H0 Hin].
  rewrite Q.min_r by exact H0.
  apply Qle_antisym.
  - apply fold_Qmin_glb; [apply py_min_le_first|].
    intros x Hx. apply py_min_le_in, Hx.
  - destruct (py_min_in cs 0) as [E|E].
    + rewrite <- E. exact H0.
    + apply Hin, E.
Qed.

(* ------------------------------------------------------------------ *)
(** ** Plot ranges: lemmas *)

(** Lines 123-134 applied to equal extremes give equal ranges. *)
Lemma pad_and_widen_compat (hi lo hi' lo' : number) :
  hi == hi' -> lo == lo' ->
  range_eq
    (py_min (lo - (if negb (Qeq_bool (hi - lo) 0) then 0.05 * (hi - lo) else 1)) [-2],
     py_max (hi + (if negb (Qeq_bool (hi - lo) 0) then 0.05 * (hi - lo) else 1)) [2])
    (Qmin (lo' - (if Qeq_bool (hi' - lo') 0 then 1 else (5 # 100) * (hi' - lo'))) (-2),
     Qmax (hi' + (if Qeq_bool (hi' - lo') 0 then 1 else (5 # 100) * (hi' - lo'))) 2).
Proof.
  intros Hh Hl. unfold range_eq; simpl fst; simpl snd.
  assert (E : Qeq_bool (hi - lo) 0 = Qeq_bool (hi' - lo') 0).
  { apply Qeqb_comp; lra. }
  rewrite E. destruct (Qeq_bool (hi' - lo') 0); simpl negb; cbv iota.
  - split; (eapply Qeq_trans; [apply py_min_pair || apply py_max_pair|]);
      [apply Q.min_compat | apply Q.max_compat]; lra.
  - split; (eapply Qeq_trans; [apply py_min_pair || apply py_max_pair|]);
      [apply Q.min_compat | apply Q.max_compat]; lra.
Qed.

Lemma plot_range_spec cs : range_eq (plot_range cs) (spec_range cs).
Proof.
  unfold plot_range, spec_range; cbv zeta.
  apply pad_and_widen_compat; [apply py_max_0_spec | apply py_min_0_spec].
Qed.



Lemma range_eq_refl r : range_eq r r.
Proof. unfold range_eq; split; lra. Qed.



Lemma plot_range_snoc_0 cs : plot_range (cs ++ [0]) = plot_range cs.
Proof.
  unfold plot_range. rewrite py_max_0_snoc_0, py_min_0_snoc_0. reflexivity.
Qed.

Lemma spec_range_covers cs :
  fst (spec_range cs) <= -2 /\ 2 <= snd (spec_range cs) /\
  forall c, In c cs -> within (spec_range cs) c.
Proof.
  unfold within, spec_range; cbv zeta; simpl fst; simpl snd.
  destruct (fold_Qmax_bounds cs) as [_ Min].
  destruct (fold_Qmin_bounds cs) as [_ min].
  pose proof (Q.le_max_l 0 (fold_right Qmax 0 cs)) as M0.
  pose proof (Q.le_max_r 0 (fold_right Qmax 0 cs)) as M1.
  pose proof (Q.le_min_l 0 (fold_right Qmin 0 cs)) as m0.
  pose proof (Q.le_min_r 0 (fold_right Qmin 0 cs)) as m1.
  set (hi := Qmax 0 (fold_right Qmax 0 cs)) in *.
  set (lo := Qmin 0 (fold_right Qmin 0 cs)) in *.
  assert (P : 0 <= (if Qeq_bool (hi - lo) 0 then 1 else (5 # 100) * (hi - lo))).
  { destruct (Qeq_bool (hi - lo) 0); lra. }
  set (padding := if Qeq_bool (hi - lo) 0 then 1 else (5 # 100) * (hi - lo)) in *.
  split; [apply Q.le_min_r|]. split; [apply Q.le_max_r|].
  intros c Hc. specialize (Min c Hc). specialize (min c Hc). split.
  - eapply Qle_trans; [apply Q.le_min_l|]. lra.
  - eapply Qle_trans; [|apply Q.le_max_l]. lra.
Qed.

(** The range reaches -2 and 2 and covers zero and every coordinate. *)
Lemma plot_range_covers cs :
  fst (plot_range cs) <= -2 /\ 2 <= snd (plot_range cs) /\
  forall c, In c cs -> within (plot_range cs) c.
Proof.
  destruct (plot_range_spec cs) as [Hlo Hhi].
  destruct (spec_range_covers cs) as (S1 & S2 & S3).
  split; [rewrite Hlo; exact S1|]. split; [rewrite Hhi; exact S2|].
  intros c Hc. destruct (S3 c Hc) as [L U].
  split; [rewrite Hlo; exact L | rewrite Hhi; exact U].
Qed.

(* ------------------------------------------------------------------ *)
(** ** The log: lemmas *)

Lemma uniform_ret {A} (a : A) : uniform (ret a).
Proof. intros log. unfold ret; simpl. rewrite app_nil_r. reflexivity. Qed.

Lemma uniform_raise {A} (e : exn) : uniform (@raise A e).
Proof. intros log. unfold raise; simpl. rewrite app_nil_r. reflexivity. Qed.

Lemma uniform_lift {A} (o : outcome A) : uniform (lift o).
Proof. intros log. unfold lift; simpl. rewrite app_nil_r. reflexivity. Qed.

Lemma uniform_emit c : uniform (emit c).
Proof. intros log. reflexivity. Qed.

Lemma uniform_bind {A B} (m : M A) (k : A -> M B) :
  uniform m -> (forall a, uniform (k a)) -> uniform (bind m k).
Proof.
  intros Hm Hk log. unfold bind.
  rewrite (Hm log). destruct (m []) as [[a|e] l]; simpl.
  - rewrite (Hk a (log ++ l)), (Hk a l). simpl.
    rewrite app_assoc. reflexivity.
  - reflexivity.
Qed.

Lemma uniform_when b m : uniform m -> uniform (when b m).
Proof. destruct b; simpl; [tauto | intros _; apply uniform_ret]. Qed.

Lemma uniform_for_each {A} (l : list A) body :
  (forall a, uniform (body a)) -> uniform (for_each l body).
Proof.
  intros H. induction l as [|a l IH]; simpl.
  - apply uniform_ret.
  - apply uniform_bind; [apply H | intros _; exact IH].
Qed.

Lemma uniform_subscript vs i : uniform (subscript vs i).
Proof.
  unfold subscript. destruct (nth_error vs i);
    [apply uniform_ret | apply uniform_raise].
Qed.

Lemma uniform_draw_axis_line p q c ls : uniform (_draw_axis_line p q c ls).
Proof. destruct p as [[? ?] ?], q as [[? ?] ?]. apply uniform_emit. Qed.

Create HintDb uniform.
#[local] Hint Resolve uniform_ret uniform_raise uniform_lift uniform_emit
  uniform_when uniform_for_each uniform_subscript uniform_draw_axis_line
  : uniform.

Ltac uniform_steps :=
  repeat first
    [ apply uniform_bind; [|intros ?]
    | solve [auto with uniform] ].

Lemma uniform_draw_object d obj : uniform (draw_object d obj).
Proof.
  destruct obj as [vs c|vs c|[[? ?] ?] [[? ?] ?] c|[[? ?] ?] [[? ?] ?] c ls
                  |[[? ?] ?]|r]; simpl.
  - apply uniform_for_each. intros i. uniform_steps.
  - apply uniform_bind; [apply uniform_lift|].
    intros [[? ?] ?]. apply uniform_emit.
  - apply uniform_emit.
  - apply uniform_emit.
  - uniform_steps.
  - apply uniform_raise.
Qed.

(** Running [m] and then [k]: the log of [m], then that of [k]. *)
Lemma bind_uniform {A B} (m : M A) (k : A -> M B) log :
  uniform m ->
  bind m k log =
    match fst (m []) with
    | Return a => k a (log ++ snd (m []))
    | Raise e => (Raise e, log ++ snd (m []))
    end.
Proof.
  intros Hm. unfold bind. rewrite (Hm log).
  destruct (m []) as [[a|e] l]; reflexivity.
Qed.

Lemma bind_lift {A B} (o : outcome A) (k : A -> M B) log :
  bind (lift o) k log =
    match o with Return a => k a log | Raise e => (Raise e, log) end.
Proof. destruct o; reflexivity. Qed.

Lemma bind_emits {B} (m : M unit) cs (k : unit -> M B) log :
  emits m cs -> bind m k log = k tt (log ++ cs).
Proof. intros H. unfold bind. rewrite H. reflexivity. Qed.

Lemma emits_emit c : emits (emit c) [c].
Proof. intros log. reflexivity. Qed.

Lemma emits_ret : emits (ret tt) [].
Proof. intros log. unfold ret. rewrite app_nil_r. reflexivity. Qed.

Lemma emits_bind m1 m2 cs1 cs2 :
  emits m1 cs1 -> emits m2 cs2 -> emits (m1 ;; m2) (cs1 ++ cs2).
Proof.
  intros H1 H2 log. rewrite (bind_emits _ cs1) by exact H1.
  rewrite H2, app_assoc. reflexivity.
Qed.

Lemma emits_when b m cs : emits m cs -> emits (when b m) (if b then cs else []).
Proof. destruct b; simpl; [tauto | intros _; apply emits_ret]. Qed.

Lemma emits_draw_axis_line p q c ls :
  emits (_draw_axis_line p q c ls)
        [Plot [xcoord p; xcoord q] [ycoord p; ycoord q] [zcoord p; zcoord q] c ls].
Proof. destruct p as [[? ?] ?], q as [[? ?] ?]. apply emits_emit. Qed.

Lemma emits_view kw :
  emits (when (is_some (azim kw) || is_some (elev kw))
              (emit (ViewInit (elev kw) (azim kw)))) (view_calls kw).
Proof. apply emits_when, emits_emit. Qed.

Lemma emits_axes kw rx ry rz :
  emits (when (axes kw)
           (_draw_axis_line (fst rx, 0, 0) (snd rx, 0, 0) black "solid" ;;
            _draw_axis_line (0, fst ry, 0) (0, snd ry, 0) black "solid" ;;
            _draw_axis_line (0, 0, fst rz) (0, 0, snd rz) black "solid"))
        (axes_calls kw rx ry rz).
Proof.
  apply emits_when.
  repeat apply (emits_bind _ _ [_]); apply emits_emit.
Qed.

Lemma emits_origin kw :
  emits (when (origin kw)
           (emit (Scatter [0] [0] [0] (mpl "k") (Some "x"%string) None)))
        (origin_calls kw).
Proof. apply emits_when, emits_emit. Qed.

Lemma emits_limits kw :
  emits (match xlim kw, ylim kw, zlim kw with
         | Some xl, Some yl, Some zl =>
             emit (SetXlim (fst xl) (snd xl)) ;;
             emit (SetYlim (fst yl) (snd yl)) ;;
             emit (SetZlim (fst zl) (snd zl))
         | _, _, _ => ret tt
         end) (limit_calls kw).
Proof.
  unfold limit_calls.
  destruct (xlim kw), (ylim kw), (zlim kw); try apply emits_ret.
  repeat apply (emits_bind _ _ [_]); apply emits_emit.
Qed.

Lemma emits_ticks kw :
  emits (match xticks kw, yticks kw, zticks kw with
         | Some xt, Some yt, Some zt =>
             emit (SetXticks xt) ;; emit (SetYticks yt) ;; emit (SetZticks zt)
         | _, _, _ => ret tt
         end) (tick_calls kw).
Proof.
  unfold tick_calls.
  destruct (xticks kw), (yticks kw), (zticks kw); try apply emits_ret.
  repeat apply (emits_bind _ _ [_]); apply emits_emit.
Qed.

Lemma emits_save kw :
  emits (when (truthy (save_as kw))
           (match save_as kw with Some p => emit (Savefig p) | None => ret tt end))
        (save_calls kw).
Proof.
  unfold save_calls. destruct (save_as kw) as [p|]; [|apply emits_ret].
  apply emits_when, emits_emit.
Qed.

Lemma draw3d_unfold objects kw :
  draw3d objects kw =
    match extract_vectors_3D objects with
    | Raise e => (Raise e, setup_calls kw)
    | Return extracted =>
        match zip_star (all_vectors extracted (origin kw)) with
        | Raise e => (Raise e, setup_calls kw)
        | Return (xs, ys, zs) =>
            let rx := plot_range xs in
            let ry := plot_range ys in
            let rz := plot_range zs in
            let before := setup_calls kw ++ range_calls rx ry rz
                          ++ axes_calls kw rx ry rz ++ origin_calls kw in
            let loop := for_each objects (draw_object (depthshade kw)) [] in
            match fst loop with
            | Raise e => (Raise e, before ++ snd loop)
            | Return _ =>
                (Return tt,
                 before ++ snd loop ++ limit_calls kw ++ tick_calls kw
                 ++ save_calls kw ++ [Show])
            end
        end
    end.
Proof.
  unfold draw3d, draw3d_body.
  rewrite (bind_emits _ _ _ _ (emits_emit _)).
  rewrite (bind_emits _ _ _ _ (emits_view kw)).
  change (([] ++ [Figure (width kw, width kw)]) ++ view_calls kw)
    with (setup_calls kw).
  rewrite bind_lift.
  destruct (extract_vectors_3D objects) as [extracted|e]; [|reflexivity].
  rewrite bind_lift.
  destruct (zip_star (all_vectors extracted (origin kw))) as [[[xs ys] zs]|e];
    [|reflexivity].
  cbv zeta.
  generalize (plot_range xs) (plot_range ys) (plot_range zs). intros rx ry rz.
  do 6 rewrite (bind_emits _ _ _ _ (emits_emit _)).
  rewrite (bind_emits _ _ _ _ (emits_axes kw rx ry rz)).
  rewrite (bind_emits _ _ _ _ (emits_origin kw)).
  rewrite bind_uniform by (apply uniform_for_each; intros; apply uniform_draw_object).
  destruct (fst (for_each objects (draw_object (depthshade kw)) [])) as [[]|e].
  - rewrite (bind_emits _ _ _ _ (emits_limits kw)).
    rewrite (bind_emits _ _ _ _ (emits_ticks kw)).
    rewrite (bind_emits _ _ _ _ (emits_save kw)).
    unfold emit, range_calls. f_equal.
    repeat rewrite <- app_assoc. reflexivity.
  - unfold range_calls. f_equal. repeat rewrite <- app_assoc. reflexivity.
Qed.

(* ------------------------------------------------------------------ *)
(** ** The drawing loop: lemmas *)

(** The polygon loop over any list of valid indices. *)
Lemma polygon_loop_emits c vertices (indices : list nat) :
  (forall i, In i indices -> (i < List.length vertices)%nat) ->
  emits
    (for_each indices (fun i =>
       p1 <- subscript vertices i ;;
       p2 <- subscript vertices ((i + 1) mod List.length vertices) ;;
       _draw_axis_line p1 p2 c "solid"))
    (map (fun i => edge c (nth i vertices (0, 0, 0),
                           nth ((i + 1) mod List.length vertices) vertices (0, 0, 0)))
         indices).
Proof.
  induction indices as [|i rest IH]; intros Hlt; simpl for_each; simpl map.
  - apply emits_ret.
  - apply (emits_bind _ _ [_]).
    + intros log.
      assert (Hi : (i < List.length vertices)%nat) by (apply Hlt; left; reflexivity).
      assert (Hj : ((i + 1) mod List.length vertices < List.length vertices)%nat)
        by (apply Nat.mod_upper_bound; lia).
      unfold subscript.
      rewrite (nth_error_nth' vertices (0, 0, 0) Hi).
      rewrite (nth_error_nth' vertices (0, 0, 0) Hj).
      unfold bind, ret. apply emits_draw_axis_line.
    + apply IH. intros j Hj. apply Hlt. right; exact Hj.
Qed.

Lemma draw_polygon_emits d vertices c :
  emits (draw_object d (Polygon3D vertices c))
        (map (edge c) (polygon_edges vertices)).
Proof.
  unfold polygon_edges; cbv zeta. rewrite map_map.
  apply polygon_loop_emits. intros i Hi. apply in_seq in Hi. lia.
Qed.

(** How drawing one object ends. *)
Lemma draw_object_outcome d obj :
  fst (draw_object d obj []) =
    match obj with
    | Other repr => Raise (unrecognized_object repr)
    | _ => if empty_points obj then Raise not_enough_values else Return tt
    end.
Proof.
  destruct obj as [vs c|vs c|[[? ?] ?] [[? ?] ?] c|[[? ?] ?] [[? ?] ?] c ls
                  |[[? ?] ?]|r]; try reflexivity.
  - rewrite (draw_polygon_emits d vs c []). reflexivity.
  - destruct vs; reflexivity.
Qed.

Lemma polygon_edges_drawing c l : forallb is_drawing (map (edge c) l) = true.
Proof. induction l; simpl; auto. Qed.

(** Drawing an object makes drawing calls only. *)
Lemma draw_object_drawing d obj :
  forallb is_drawing (snd (draw_object d obj [])) = true.
Proof.
  destruct obj as [vs c|vs c|[[? ?] ?] [[? ?] ?] c|[[? ?] ?] [[? ?] ?] c ls
                  |[[? ?] ?]|r]; try reflexivity.
  - rewrite (draw_polygon_emits d vs c []). simpl.
    apply polygon_edges_drawing.
  - destruct vs; reflexivity.
Qed.

Lemma for_each_draw_cons d obj rest :
  for_each (obj :: rest) (draw_object d) [] =
    match fst (draw_object d obj []) with
    | Return _ =>
        (fst (for_each rest (draw_object d) []),
         snd (draw_object d obj []) ++ snd (for_each rest (draw_object d) []))
    | Raise e => (Raise e, snd (draw_object d obj []))
    end.
Proof.
  simpl for_each. rewrite bind_uniform by apply uniform_draw_object.
  destruct (fst (draw_object d obj [])); [|reflexivity].
  simpl app.
  apply (uniform_for_each rest (draw_object d) (uniform_draw_object d)).
Qed.

Lemma for_each_draw_drawing d objects :
  forallb is_drawing (snd (for_each objects (draw_object d) [])) = true.
Proof.
  induction objects as [|obj rest IH].
  - reflexivity.
  - rewrite for_each_draw_cons.
    pose proof (draw_object_drawing d obj) as H.
    destruct (fst (draw_object d obj [])); simpl snd; [|exact H].
    rewrite forallb_app, H, IH. reflexivity.
Qed.

Lemma for_each_draw_outcome d objects :
  first_unrecognized objects = None ->
  fst (for_each objects (draw_object d) []) =
    if existsb empty_points objects then Raise not_enough_values else Return tt.
Proof.
  induction objects as [|obj rest IH]; intros H.
  - reflexivity.
  - rewrite for_each_draw_cons, draw_object_outcome.
    destruct obj; simpl in H |- *; try (apply IH, H); try discriminate.
    destruct vectors; simpl; [reflexivity | apply IH, H].
Qed.

(* ------------------------------------------------------------------ *)
(** ** Final limits and ticks: lemmas *)

Lemma last_set_app {A} (setter : call -> option A) l1 l2 :
  last_set setter (l1 ++ l2) =
    match last_set setter l2 with
    | Some a => Some a
    | None => last_set setter l1
    end.
Proof.
  unfold last_set. rewrite fold_left_app.
  generalize (fold_left
                (fun acc c => match setter c with Some a => Some a | None => acc end)
                l1 None).
  induction l2 as [|c l2 IH] using rev_ind; intros acc.
  - reflexivity.
  - rewrite !fold_left_app; simpl. destruct (setter c); [reflexivity | apply IH].
Qed.

Lemma last_set_none {A} (setter : call -> option A) l :
  (forall c, In c l -> setter c = None) -> last_set setter l = None.
Proof.
  induction l as [|c l IH] using rev_ind; intros H.
  - reflexivity.
  - rewrite last_set_app. unfold last_set at 1; simpl.
    rewrite (H c) by (apply in_or_app; right; left; reflexivity).
    apply IH. intros c' Hc'. apply H, in_or_app. left; exact Hc'.
Qed.

(** A drawing call sets neither limits nor ticks. *)
Lemma last_set_drawing {A} (setter : call -> option A) l :
  (forall c, is_drawing c = true -> setter c = None) ->
  forallb is_drawing l = true -> last_set setter l = None.
Proof.
  intros Hs Hl. apply last_set_none. intros c Hc. apply Hs.
  rewrite forallb_forall in Hl. apply Hl, Hc.
Qed.

(* ------------------------------------------------------------------ *)
(** ** Plot ranges of a call: lemmas *)

Lemma zip_star_columns vs :
  vs <> [] -> zip_star vs = Return (map xcoord vs, map ycoord vs, map zcoord vs).
Proof. destruct vs; [congruence | reflexivity]. Qed.

Lemma plot_ranges_unfold objects origin :
  plot_ranges objects origin =
    match first_unrecognized objects with
    | Some repr => Raise (unrecognized_object repr)
    | None =>
        let vs := all_vectors (flat_map coordinates objects) origin in
        if is_nil vs then Raise not_enough_values
        else Return (plot_range (map xcoord vs), plot_range (map ycoord vs),
                     plot_range (map zcoord vs))
    end.
Proof.
  unfold plot_ranges. rewrite extract_vectors_3D_unfold.
  destruct (first_unrecognized objects); [reflexivity|]. cbv zeta.
  destruct (all_vectors (flat_map coordinates objects) origin); reflexivity.
Qed.

(** [draw3d] sets the axes to the plot ranges right after creating the
    figure. *)
Lemma draw3d_sets_plot_ranges objects kw rx ry rz :
  plot_ranges objects (origin kw) = Return (rx, ry, rz) ->
  exists rest,
    snd (draw3d objects kw) = setup_calls kw ++ range_calls rx ry rz ++ rest.
Proof.
  unfold plot_ranges. rewrite draw3d_unfold.
  destruct (extract_vectors_3D objects) as [extracted|e]; [|discriminate].
  destruct (zip_star (all_vectors extracted (origin kw))) as [[[xs ys] zs]|e];
    [|discriminate].
  intros H; injection H as <- <- <-. cbv zeta.
  destruct (fst (for_each objects (draw_object (depthshade kw)) []));
    simpl snd; eexists; repeat rewrite <- app_assoc; reflexivity.
Qed.

Lemma all_vectors_snoc extracted :
  all_vectors extracted true = all_vectors extracted false ++ [(0, 0, 0)].
Proof. reflexivity. Qed.

(* ------------------------------------------------------------------ *)
(** ** The claims *)

(** C5.  For a sequence of objects of the five recognized types,
    [extract_vectors_3D] yields exactly the documented coordinate triples,
    as one flat sequence in the order of the objects: the vertices of a
    [Polygon3D], the vectors of a [Points3D], the tip and the tail of an
    [Arrow3D], the two end points of a [Segment3D] and the corner of a
    [Box3D]. *)
Theorem extract_vectors_3D_documented (objects : list object) :
  forallb recognized objects = true ->
  extract_vectors_3D objects = Return (List.concat (map coordinates objects)).
Proof.
  intros H. apply first_unrecognized_none in H.
  rewrite extract_vectors_3D_unfold, H, flat_map_concat_map. reflexivity.
Qed.

Lemma extract_vectors_3D_documented_witness :
  forallb recognized
    [Polygon3D [(1, 0, 0); (0, 1, 0); (0, 0, 1)] blue;
     Points3D [(1, 1, 1); (-1, 2, 0)] black;
     Arrow3D (1, 2, 3) (0, 0, 0) red;
     Segment3D (0, 0, 1) (3, 0, 1) blue "solid";
     Box3D (2, 3, 4)] = true /\
  extract_vectors_3D
    [Polygon3D [(1, 0, 0); (0, 1, 0); (0, 0, 1)] blue;
     Points3D [(1, 1, 1); (-1, 2, 0)] black;
     Arrow3D (1, 2, 3) (0, 0, 0) red;
     Segment3D (0, 0, 1) (3, 0, 1) blue "solid";
     Box3D (2, 3, 4)]
  = Return [(1, 0, 0); (0, 1, 0); (0, 0, 1); (1, 1, 1); (-1, 2, 0);
            (1, 2, 3); (0, 0, 0); (0, 0, 1); (3, 0, 1); (2, 3, 4)].
Proof.
  split; [reflexivity|].
  apply (extract_vectors_3D_documented
           [Polygon3D [(1, 0, 0); (0, 1, 0); (0, 0, 1)] blue;
            Points3D [(1, 1, 1); (-1, 2, 0)] black;
            Arrow3D (1, 2, 3) (0, 0, 0) red;
            Segment3D (0, 0, 1) (3, 0, 1) blue "solid";
            Box3D (2, 3, 4)]).
  reflexivity.
Defined.

(** C3.  In every call of [draw3d] that computes plot ranges, the range of
    each axis is the one section 4.2 describes, computed from the column
    of that axis in the extracted vectors (with the origin appended when
    requested): minimum and maximum clamped to include zero, padded by 5%
    of the extent (by 1 when the extent is zero), then widened to span at
    least [-2, 2].  These ranges are the limits that the call sets. *)
Theorem plot_ranges_follow_spec (objects : list object) (kw : kwargs)
    (rx ry rz : range) :
  plot_ranges objects (origin kw) = Return (rx, ry, rz) ->
  (exists rest,
      snd (draw3d objects kw) = setup_calls kw ++ range_calls rx ry rz ++ rest) /\
  exists extracted,
    extract_vectors_3D objects = Return extracted /\
    range_eq rx (spec_range (map xcoord (all_vectors extracted (origin kw)))) /\
    range_eq ry (spec_range (map ycoord (all_vectors extracted (origin kw)))) /\
    range_eq rz (spec_range (map zcoord (all_vectors extracted (origin kw)))).
Proof.
  intros H. split; [apply draw3d_sets_plot_ranges, H|].
  unfold plot_ranges in H.
  destruct (extract_vectors_3D objects) as [extracted|e]; [|discriminate].
  exists extracted. split; [reflexivity|].
  destruct (all_vectors extracted (origin kw)) as [|v vs] eqn:E; [discriminate|].
  rewrite zip_star_columns in H by discriminate.
  injection H as <- <- <-.
  repeat split; apply plot_range_spec.
Qed.

Lemma plot_ranges_follow_spec_witness :
  plot_ranges [Box3D (2, 3, 4); Arrow3D (-1, 0, 5) (0, 0, 0) red] (origin defaults)
    = Return ((-2, 2.15), (-2, 3.15), (-2, 5.25)) /\
  range_eq (-2, 2.15) (spec_range [2; -1; 0; 0]) /\
  range_eq (-2, 3.15) (spec_range [3; 0; 0; 0]) /\
  range_eq (-2, 5.25) (spec_range [4; 5; 0; 0]).
Proof.
  pose proof (plot_ranges_follow_spec
                [Box3D (2, 3, 4); Arrow3D (-1, 0, 5) (0, 0, 0) red] defaults
                (-2, 2.15) (-2, 3.15) (-2, 5.25) eq_refl) as [_ [extracted [E H]]].
  injection E as <-. split; [reflexivity | exact H].
Defined.

(** C4.  In every call of [draw3d] on objects of recognized types that has
    a vector to bound, the plot range computed for each of the three axes
    has a lower bound of at most -2 and an upper bound of at least 2; it
    contains the origin and every extracted coordinate. *)
Theorem plot_ranges_cover (objects : list object) (origin : bool) :
  forallb recognized objects = true ->
  all_vectors (flat_map coordinates objects) origin <> [] ->
  exists rx ry rz,
    plot_ranges objects origin = Return (rx, ry, rz) /\
    (fst rx <= -2 /\ 2 <= snd rx) /\
    (fst ry <= -2 /\ 2 <= snd ry) /\
    (fst rz <= -2 /\ 2 <= snd rz) /\
    (within rx 0 /\ within ry 0 /\ within rz 0) /\
    forall v, In v (flat_map coordinates objects) ->
      within rx (xcoord v) /\ within ry (ycoord v) /\ within rz (zcoord v).
Proof.
  intros Hrec Hne. apply first_unrecognized_none in Hrec.
  rewrite plot_ranges_unfold, Hrec; cbv zeta.
  assert (Hin : forall v, In v (flat_map coordinates objects) ->
                  In v (all_vectors (flat_map coordinates objects) origin)).
  { intros v Hv. unfold all_vectors.
    destruct origin; [apply in_or_app; left|]; exact Hv. }
  set (vs := all_vectors (flat_map coordinates objects) origin) in *.
  assert (N : is_nil vs = false) by (destruct vs; [congruence | reflexivity]).
  rewrite N.
  destruct (plot_range_covers (map xcoord vs)) as (X1 & X2 & X3).
  destruct (plot_range_covers (map ycoord vs)) as (Y1 & Y2 & Y3).
  destruct (plot_range_covers (map zcoord vs)) as (Z1 & Z2 & Z3).
  do 3 eexists. split; [reflexivity|].
  repeat split; try assumption; try (unfold within; lra);
    first [apply X3 | apply Y3 | apply Z3]; apply in_map, Hin; assumption.
Qed.

Lemma plot_ranges_cover_witness :
  forallb recognized [Box3D (2, 3, 4); Arrow3D (-1, 0, 5) (0, 0, 0) red] = true /\
  all_vectors
    (flat_map coordinates [Box3D (2, 3, 4); Arrow3D (-1, 0, 5) (0, 0, 0) red])
    false <> [] /\
  exists rx ry rz,
    plot_ranges [Box3D (2, 3, 4); Arrow3D (-1, 0, 5) (0, 0, 0) red] false
      = Return (rx, ry, rz) /\
    (fst rx <= -2 /\ 2 <= snd rx) /\
    (fst ry <= -2 /\ 2 <= snd ry) /\
    (fst rz <= -2 /\ 2 <= snd rz) /\
    (within rx 0 /\ within ry 0 /\ within rz 0) /\
    forall v,
      In v (flat_map coordinates
              [Box3D (2, 3, 4); Arrow3D (-1, 0, 5) (0, 0, 0) red]) ->
      within rx (xcoord v) /\ within ry (ycoord v) /\ within rz (zcoord v).
Proof.
  assert (Hne : all_vectors
                  (flat_map coordinates
                     [Box3D (2, 3, 4); Arrow3D (-1, 0, 5) (0, 0, 0) red])
                  false <> []) by (simpl; discriminate).
  split; [reflexivity|]. split; [exact Hne|].
  exact (plot_ranges_cover
           [Box3D (2, 3, 4); Arrow3D (-1, 0, 5) (0, 0, 0) red] false
           eq_refl Hne).
Defined.



(** C10, as the code has it.  For objects of recognized types from which
    at least one vector is extracted, the plot ranges are the same with
    [origin=True] and with [origin=False]: minimum and maximum are already
    taken together with zero, so the appended origin changes nothing. *)
Theorem plot_ranges_origin_flag (objects : list object) :
  forallb recognized objects = true ->
  flat_map coordinates objects <> [] ->
  plot_ranges objects true = plot_ranges objects false /\
  exists ranges, plot_ranges objects false = Return ranges.
Proof.
  intros Hrec Hne. apply first_unrecognized_none in Hrec.
  rewrite !plot_ranges_unfold, Hrec; cbv zeta.
  rewrite all_vectors_snoc. unfold all_vectors at 1 2 3 4 5 6 7 8.
  destruct (flat_map coordinates objects) as [|v vs]; [congruence|].
  split; [|eexists; reflexivity].
  change (is_nil ((v :: vs) ++ [(0, 0, 0)])) with false.
  change (is_nil (v :: vs)) with false. cbv iota.
  rewrite !map_app. simpl (map _ [_]).
  change (xcoord (0, 0, 0)) with 0. change (ycoord (0, 0, 0)) with 0.
  change (zcoord (0, 0, 0)) with 0.
  rewrite !plot_range_snoc_0. reflexivity.
Qed.

Lemma plot_ranges_origin_flag_witness :
  forallb recognized [Box3D (2, 3, 4)] = true /\
  flat_map coordinates [Box3D (2, 3, 4)] <> [] /\
  plot_ranges [Box3D (2, 3, 4)] true = plot_ranges [Box3D (2, 3, 4)] false.
Proof.
  assert (Hne : flat_map coordinates [Box3D (2, 3, 4)] <> [])
    by (simpl; discriminate).
  split; [reflexivity|]. split; [exact Hne|].
  exact (proj1 (plot_ranges_origin_flag [Box3D (2, 3, 4)] eq_refl Hne)).
Defined.

(** C10 as stated fails: an object of a recognized type need not hold any
    vector.  For the single polygon without vertices, [origin=True] gives
    the ranges [-2, 2] and [origin=False] fails to unpack. *)
Lemma plot_ranges_origin_flag_counterexample :
  forallb recognized [Polygon3D [] blue] = true /\
  [Polygon3D [] blue] <> [] /\
  plot_ranges [Polygon3D [] blue] true = Return ((-2, 2), (-2, 2), (-2, 2)) /\
  plot_ranges [Polygon3D [] blue] false = Raise not_enough_values /\
  ~ same_ranges (plot_ranges [Polygon3D [] blue] true)
                (plot_ranges [Polygon3D [] blue] false).
Proof.
  split; [reflexivity|]. split; [discriminate|].
  split; [reflexivity|]. split; [reflexivity|].
  simpl. tauto.
Qed.

(** C8.  A call with no object and [origin=False] fails with the
    [ValueError] of unpacking an empty [zip], before any drawing call is
    made, although no object is of an unrecognized type. *)
Theorem draw3d_nothing_to_bound (kw : kwargs) :
  origin kw = false ->
  draw3d [] kw = (Raise not_enough_values, setup_calls kw) /\
  existsb is_drawing (snd (draw3d [] kw)) = false /\
  forallb recognized [] = true.
Proof.
  intros H. rewrite draw3d_unfold. simpl extract_vectors_3D.
  unfold all_vectors. rewrite H. simpl zip_star. simpl snd.
  repeat split. unfold setup_calls, view_calls.
  destruct (is_some (azim kw) || is_some (elev kw)); reflexivity.
Qed.

Lemma draw3d_nothing_to_bound_witness :
  origin (with_origin false defaults) = false /\
  draw3d [] (with_origin false defaults)
    = (Raise not_enough_values, [Figure (6, 6)]).
Proof.
  split; [reflexivity|].
  exact (proj1 (draw3d_nothing_to_bound (with_origin false defaults) eq_refl)).
Defined.

(* ------------------------------------------------------------------ *)
(** ** How a call ends: lemmas *)


Lemma draw3d_raised objects kw :
  raised (draw3d objects kw) =
    match first_unrecognized objects with
    | Some repr => Some (unrecognized_object repr)
    | None => if unpack_fails objects kw then Some not_enough_values else None
    end.
Proof.
  rewrite draw3d_unfold, extract_vectors_3D_unfold. unfold unpack_fails.
  destruct (first_unrecognized objects) as [repr|] eqn:E; [reflexivity|].
  destruct (all_vectors (flat_map coordinates objects) (origin kw)) as [|v vs];
    [reflexivity|].
  simpl zip_star; cbv iota zeta beta. simpl is_nil. simpl orb.
  rewrite (for_each_draw_outcome (depthshade kw) objects E).
  destruct (existsb empty_points objects); reflexivity.
Qed.



(* ------------------------------------------------------------------ *)
(** ** Limits and ticks at the end of a call: lemmas *)

Lemma last_set_quiet {A} (setter : call -> option A) l :
  (forall c, sets_axes c = false -> setter c = None) ->
  forallb (fun c => negb (sets_axes c)) l = true ->
  last_set setter l = None.
Proof.
  intros Hs Hl. apply last_set_none. intros c Hc. apply Hs.
  rewrite forallb_forall in Hl. apply negb_true_iff, Hl, Hc.
Qed.

Lemma drawing_quiet l :
  forallb is_drawing l = true -> forallb (fun c => negb (sets_axes c)) l = true.
Proof.
  rewrite !forallb_forall. intros H c Hc. specialize (H c Hc).
  destruct c; try discriminate; reflexivity.
Qed.

Lemma setup_calls_quiet kw :
  forallb (fun c => negb (sets_axes c)) (setup_calls kw) = true.
Proof.
  unfold setup_calls, view_calls.
  destruct (is_some (azim kw) || is_some (elev kw)); reflexivity.
Qed.

Lemma axes_calls_quiet kw rx ry rz :
  forallb (fun c => negb (sets_axes c)) (axes_calls kw rx ry rz) = true.
Proof. unfold axes_calls. destruct (axes kw); reflexivity. Qed.

Lemma origin_calls_quiet kw :
  forallb (fun c => negb (sets_axes c)) (origin_calls kw) = true.
Proof. unfold origin_calls. destruct (origin kw); reflexivity. Qed.

Lemma save_calls_quiet kw :
  forallb (fun c => negb (sets_axes c)) (save_calls kw) = true.
Proof. unfold save_calls. destruct (save_as kw) as [[|a p]|]; reflexivity. Qed.

(** The log of a call that completes, read by one setter: its last
    setting is in the ticks, else in the overriding limits, else in the
    computed ranges. *)
Lemma last_set_completed {A} (setter : call -> option A) kw rx ry rz loop :
  (forall c, sets_axes c = false -> setter c = None) ->
  forallb is_drawing loop = true ->
  last_set setter
    ((setup_calls kw ++ range_calls rx ry rz ++ axes_calls kw rx ry rz
      ++ origin_calls kw)
     ++ loop ++ limit_calls kw ++ tick_calls kw ++ save_calls kw ++ [Show]) =
  match last_set setter (tick_calls kw) with
  | Some a => Some a
  | None =>
      match last_set setter (limit_calls kw) with
      | Some a => Some a
      | None => last_set setter (range_calls rx ry rz)
      end
  end.
Proof.
  intros Hs Hloop.
  rewrite !last_set_app.
  rewrite (last_set_quiet setter [Show] Hs eq_refl).
  rewrite (last_set_quiet setter _ Hs (save_calls_quiet kw)).
  rewrite (last_set_quiet setter _ Hs (drawing_quiet _ Hloop)).
  rewrite (last_set_quiet setter _ Hs (origin_calls_quiet kw)).
  rewrite (last_set_quiet setter _ Hs (axes_calls_quiet kw rx ry rz)).
  rewrite (last_set_quiet setter _ Hs (setup_calls_quiet kw)).
  destruct (last_set setter (tick_calls kw)); [reflexivity|].
  destruct (last_set setter (limit_calls kw)); [reflexivity|].
  destruct (last_set setter (range_calls rx ry rz)); reflexivity.
Qed.

Ltac quiet_setter :=
  let c := fresh "c" in
  intros c; destruct c; simpl; intros; solve [reflexivity | discriminate].

(** The log of a call that completes. *)
Lemma draw3d_completed objects kw :
  raised (draw3d objects kw) = None ->
  exists rx ry rz,
    plot_ranges objects (origin kw) = Return (rx, ry, rz) /\
    fst (for_each objects (draw_object (depthshade kw)) []) = Return tt /\
    snd (draw3d objects kw) =
      (setup_calls kw ++ range_calls rx ry rz ++ axes_calls kw rx ry rz
       ++ origin_calls kw)
      ++ snd (for_each objects (draw_object (depthshade kw)) [])
      ++ limit_calls kw ++ tick_calls kw ++ save_calls kw ++ [Show].
Proof.
  unfold raised, plot_ranges. rewrite draw3d_unfold.
  destruct (extract_vectors_3D objects) as [extracted|e]; [|discriminate].
  destruct (zip_star (all_vectors extracted (origin kw))) as [[[xs ys] zs]|e];
    [|discriminate].
  cbv zeta.
  destruct (fst (for_each objects (draw_object (depthshade kw)) [])) as [[]|e];
    [|discriminate].
  intros _. do 3 eexists. split; [reflexivity|]. split; reflexivity.
Qed.




(* ------------------------------------------------------------------ *)
(** ** Segments in a log: lemmas *)

Lemma segments_app l1 l2 : segments (l1 ++ l2) = segments l1 ++ segments l2.
Proof.
  induction l1 as [|c l1 IH]; simpl; [reflexivity|].
  destruct (segment_of c); simpl; rewrite IH; reflexivity.
Qed.

Lemma segments_none l :
  (forall c, In c l -> segment_of c = None) -> segments l = [].
Proof.
  induction l as [|c l IH]; intros H; simpl; [reflexivity|].
  rewrite (H c) by (left; reflexivity). apply IH.
  intros c' Hc'. apply H. right; exact Hc'.
Qed.

Lemma segments_edges c l : segments (map (edge c) l) = l.
Proof.
  induction l as [|[[[x1 y1] z1] [[x2 y2] z2]] l IH]; simpl; [reflexivity|].
  rewrite IH. reflexivity.
Qed.

(** Only the axis lines and the objects contribute segments. *)
Lemma segments_completed kw rx ry rz loop :
  segments
    ((setup_calls kw ++ range_calls rx ry rz ++ axes_calls kw rx ry rz
      ++ origin_calls kw)
     ++ loop ++ limit_calls kw ++ tick_calls kw ++ save_calls kw ++ [Show])
  = segments (axes_calls kw rx ry rz) ++ segments loop.
Proof.
  assert (S1 : segments (setup_calls kw) = []).
  { unfold setup_calls, view_calls.
    destruct (is_some (azim kw) || is_some (elev kw)); reflexivity. }
  assert (S2 : segments (origin_calls kw) = []).
  { unfold origin_calls. destruct (origin kw); reflexivity. }
  assert (S3 : segments (limit_calls kw) = []).
  { unfold limit_calls. destruct (xlim kw), (ylim kw), (zlim kw); reflexivity. }
  assert (S4 : segments (tick_calls kw) = []).
  { unfold tick_calls. destruct (xticks kw), (yticks kw), (zticks kw); reflexivity. }
  assert (S5 : segments (save_calls kw) = []).
  { unfold save_calls. destruct (save_as kw) as [[|a p]|]; reflexivity. }
  rewrite !segments_app, S1, S2, S3, S4, S5.
  change (segments (range_calls rx ry rz)) with (@nil (vector * vector)).
  change (segments [Show]) with (@nil (vector * vector)).
  simpl app. rewrite !app_nil_r. reflexivity.
Qed.

Lemma polygon_edges_length vertices :
  List.length (polygon_edges vertices) = List.length vertices.
Proof. unfold polygon_edges. rewrite length_map, length_seq. reflexivity. Qed.

Lemma polygon_edges_nth vertices i :
  (i < List.length vertices)%nat ->
  exists p q,
    nth_error vertices i = Some p /\
    nth_error vertices ((i + 1) mod List.length vertices) = Some q /\
    nth_error (polygon_edges vertices) i = Some (p, q).
Proof.
  intros Hi.
  assert (Hj : ((i + 1) mod List.length vertices < List.length vertices)%nat)
    by (apply Nat.mod_upper_bound; lia).
  exists (nth i vertices (0, 0, 0)),
         (nth ((i + 1) mod List.length vertices) vertices (0, 0, 0)).
  split; [apply nth_error_nth', Hi|]. split; [apply nth_error_nth', Hj|].
  unfold polygon_edges; cbv zeta.
  rewrite nth_error_map.
  rewrite (nth_error_nth' (seq 0 (List.length vertices)) 0%nat)
    by (rewrite length_seq; exact Hi).
  rewrite seq_nth by exact Hi. reflexivity.
Qed.

(** C6.  A [Polygon3D] with N >= 1 vertices is drawn as exactly N edges;
    edge i joins vertex i to vertex (i + 1) mod N, so the last edge goes
    from the last vertex back to the first and the polygon is a closed
    loop.  In a call that draws only the polygon, without axis lines,
    these N edges are all the line segments drawn. *)
Theorem polygon_closed_loop (d : bool) (vertices : list vector) (c : color)
    (kw : kwargs) (log : list call) :
  (1 <= List.length vertices)%nat ->
  draw_object d (Polygon3D vertices c) log
    = (Return tt, log ++ map (edge c) (polygon_edges vertices)) /\
  raised (draw3d [Polygon3D vertices c] (with_axes false kw)) = None /\
  segments (snd (draw3d [Polygon3D vertices c] (with_axes false kw)))
    = polygon_edges vertices /\
  List.length (polygon_edges vertices) = List.length vertices /\
  (forall i, (i < List.length vertices)%nat ->
     exists p q,
       nth_error vertices i = Some p /\
       nth_error vertices ((i + 1) mod List.length vertices) = Some q /\
       nth_error (polygon_edges vertices) i = Some (p, q)) /\
  (exists first final,
      nth_error vertices 0 = Some first /\
      nth_error vertices (List.length vertices - 1) = Some final /\
      nth_error (polygon_edges vertices) (List.length vertices - 1)
        = Some (final, first)).
Proof.
  intros HN.
  assert (R : raised (draw3d [Polygon3D vertices c] (with_axes false kw)) = None).
  { rewrite draw3d_raised. simpl first_unrecognized. unfold unpack_fails.
    simpl existsb. simpl flat_map. rewrite app_nil_r.
    destruct vertices as [|v vs]; [simpl in HN; lia|].
    unfold all_vectors. destruct (origin (with_axes false kw)); reflexivity. }
  split; [apply draw_polygon_emits|]. split; [exact R|].
  split; [|split; [apply polygon_edges_length|split; [apply polygon_edges_nth|]]].
  - destruct (draw3d_completed _ _ R) as (rx & ry & rz & _ & _ & ->).
    rewrite segments_completed.
    rewrite for_each_draw_cons.
    rewrite (draw_polygon_emits (depthshade (with_axes false kw)) vertices c []).
    simpl. rewrite app_nil_r. apply segments_edges.
  - destruct (polygon_edges_nth vertices (List.length vertices - 1))
      as (p & q & Hp & Hq & He); [lia|].
    replace ((List.length vertices - 1 + 1) mod List.length vertices)%nat
      with 0%nat in Hq.
    + exists q, p. auto.
    + replace (List.length vertices - 1 + 1)%nat with (List.length vertices) by lia.
      symmetry. apply Nat.Div0.mod_same.
Qed.

Lemma polygon_closed_loop_witness :
  (1 <= List.length [(1, 0, 0); (0, 1, 0); (0, 0, 1)])%nat /\
  draw_object false (Polygon3D [(1, 0, 0); (0, 1, 0); (0, 0, 1)] blue) []
    = (Return tt,
       [Plot [1; 0] [0; 1] [0; 0] blue "solid";
        Plot [0; 0] [1; 0] [0; 1] blue "solid";
        Plot [0; 1] [0; 0] [1; 0] blue "solid"]).
Proof.
  assert (H : (1 <= List.length [(1, 0, 0); (0, 1, 0); (0, 0, 1)])%nat)
    by (simpl; lia).
  split; [exact H|].
  exact (proj1 (polygon_closed_loop false [(1, 0, 0); (0, 1, 0); (0, 0, 1)]
                  blue defaults [] H)).
Defined.

(** C1 does not hold of the code.  For [Box3D(x, y, z)] the loop draws the
    nine dashed gray segments of lines 208-216, not twelve: in the call
    [draw3d(Box3D(2, 3, 4), axes=False)] nine segments are drawn, the three
    edges of the box that leave the origin are missing, and no segment
    touches the corner (0, 0, 0).  With the default [axes=True] the only
    further segments are the three axis lines, none of which is an edge
    of the box. *)
Theorem box3d_draws_nine_segments :
  (forall d x y z log,
      draw_object d (Box3D (x, y, z)) log
        = (Return tt, log ++ map dashed_gray (box_segments x y z))) /\
  raised (draw3d [Box3D (2, 3, 4)] (with_axes false defaults)) = None /\
  segments (snd (draw3d [Box3D (2, 3, 4)] (with_axes false defaults)))
    = box_segments 2 3 4 /\
  List.length (segments (snd (draw3d [Box3D (2, 3, 4)] (with_axes false defaults))))
    = 9%nat /\
  List.length (box_edges 2 3 4) = 12%nat /\
  filter (fun e => negb (drawn e (segments
            (snd (draw3d [Box3D (2, 3, 4)] (with_axes false defaults))))))
         (box_edges 2 3 4)
    = [((0, 0, 0), (2, 0, 0)); ((0, 0, 0), (0, 3, 0)); ((0, 0, 0), (0, 0, 4))] /\
  existsb (touches (0, 0, 0))
          (segments (snd (draw3d [Box3D (2, 3, 4)] (with_axes false defaults))))
    = false /\
  filter (fun e => negb (drawn e (segments
            (snd (draw3d [Box3D (2, 3, 4)] defaults)))))
         (box_edges 2 3 4)
    = [((0, 0, 0), (2, 0, 0)); ((0, 0, 0), (0, 3, 0)); ((0, 0, 0), (0, 0, 4))].
Proof.
  split.
  - intros d x y z log. simpl draw_object.
    unfold bind, _draw_axis_line, emit. simpl.
    repeat rewrite <- app_assoc. reflexivity.
  - repeat split; vm_compute; reflexivity.
Qed.

(* ------------------------------------------------------------------ *)
(** * Further properties of the code *)

(** ** Extraction and the drawing loop *)


(** X1.  An object of an unrecognized type stops the call before anything
    is drawn: the call raises the [TypeError] that names the first such
    object, and all it has done by then is to create the figure (and set
    the view).  No limit is set and none of the recognized objects, not
    even those passed before the offending one, is drawn. *)
Theorem unrecognized_fails_before_drawing (objects : list object)
    (kw : kwargs) (repr : string) :
  first_unrecognized objects = Some repr ->
  draw3d objects kw = (Raise (unrecognized_object repr), setup_calls kw) /\
  existsb is_drawing (snd (draw3d objects kw)) = false /\
  existsb sets_axes (snd (draw3d objects kw)) = false.
Proof.
  intros H.
  assert (E : draw3d objects kw = (Raise (unrecognized_object repr), setup_calls kw)).
  { rewrite draw3d_unfold, extract_vectors_3D_unfold, H. reflexivity. }
  rewrite E. simpl snd. unfold setup_calls, view_calls.
  destruct (is_some (azim kw) || is_some (elev kw)); repeat split.
Qed.

Lemma unrecognized_fails_before_drawing_witness :
  first_unrecognized [Box3D (2, 3, 4); Other "42"; Points3D [] black]
    = Some "42"%string /\
  draw3d [Box3D (2, 3, 4); Other "42"; Points3D [] black] defaults
    = (Raise (TypeError "Unrecognized object: 42"), [Figure (6, 6)]).
Proof.
  split; [reflexivity|].
  exact (proj1 (unrecognized_fails_before_drawing
                  [Box3D (2, 3, 4); Other "42"; Points3D [] black]
                  defaults "42" eq_refl)).
Defined.



(** X3.  Extraction goes through a sequence of objects from left to right:
    on [objects ++ more] it yields the vectors of [objects] followed by
    those of [more], and it raises what the first of the two raises. *)
Theorem extract_vectors_3D_app (objects more : list object) :
  extract_vectors_3D (objects ++ more) =
    match extract_vectors_3D objects with
    | Raise e => Raise e
    | Return vs =>
        match extract_vectors_3D more with
        | Raise e => Raise e
        | Return ws => Return (vs ++ ws)
        end
    end.
Proof.
  induction objects as [|obj rest IH].
  - simpl. destruct (extract_vectors_3D more); reflexivity.
  - change ((obj :: rest) ++ more) with (obj :: (rest ++ more)).
    destruct obj; simpl; rewrite ?IH;
      destruct (extract_vectors_3D rest); try reflexivity;
      destruct (extract_vectors_3D more); try reflexivity;
      rewrite ?app_assoc; reflexivity.
Qed.

(** X4.  The drawing loop draws the objects in the order in which they are
    passed and stops at the first one that fails: the objects before it
    have been drawn, those after it are not. *)
Theorem draw_loop_in_order (d : bool) (objects more : list object) :
  draw_loop d (objects ++ more) =
    match fst (draw_loop d objects) with
    | Return _ =>
        (fst (draw_loop d more),
         snd (draw_loop d objects) ++ snd (draw_loop d more))
    | Raise e => (Raise e, snd (draw_loop d objects))
    end.
Proof.
  unfold draw_loop. induction objects as [|obj rest IH].
  - simpl. destruct (for_each more (draw_object d) []); reflexivity.
  - change ((obj :: rest) ++ more) with (obj :: (rest ++ more)).
    rewrite !for_each_draw_cons, IH.
    destruct (fst (draw_object d obj [])); [|reflexivity].
    simpl fst.
    destruct (fst (for_each rest (draw_object d) [])); simpl;
      [rewrite app_assoc|]; reflexivity.
Qed.

(** ** What the objects look like *)



Lemma combine_columns (vs : list vector) :
  combine (combine (map xcoord vs) (map ycoord vs)) (map zcoord vs) = vs.
Proof.
  induction vs as [|[[x y] z] vs IH]; simpl; [reflexivity|].
  rewrite IH. reflexivity.
Qed.

(** X7.  A [Points3D] that holds at least one vector is drawn as one
    scatter call.  Its three coordinate columns have one entry per vector
    and zip back to the vectors, in order; the [depthshade] keyword is
    passed on. *)
Theorem points_scatter_columns (d : bool) (vectors : list vector) (c : color)
    (log : list call) :
  vectors <> [] ->
  exists xs ys zs,
    draw_object d (Points3D vectors c) log
      = (Return tt, log ++ [Scatter xs ys zs c None (Some d)]) /\
    combine (combine xs ys) zs = vectors /\
    List.length xs = List.length vectors /\
    List.length ys = List.length vectors /\
    List.length zs = List.length vectors.
Proof.
  intros H.
  exists (map xcoord vectors), (map ycoord vectors), (map zcoord vectors).
  split.
  - destruct vectors as [|v vs]; [congruence | reflexivity].
  - split; [apply combine_columns|]. rewrite !length_map. auto.
Qed.

Lemma points_scatter_columns_witness :
  [(1, 1, 1); (-1, 2, 0)] <> [] /\
  exists xs ys zs,
    draw_object true (Points3D [(1, 1, 1); (-1, 2, 0)] black) []
      = (Return tt, [] ++ [Scatter xs ys zs black None (Some true)]) /\
    combine (combine xs ys) zs = [(1, 1, 1); (-1, 2, 0)] /\
    List.length xs = List.length [(1, 1, 1); (-1, 2, 0)] /\
    List.length ys = List.length [(1, 1, 1); (-1, 2, 0)] /\
    List.length zs = List.length [(1, 1, 1); (-1, 2, 0)].
Proof.
  assert (H : [(1, 1, 1); (-1, 2, 0)] <> ([] : list vector)) by discriminate.
  split; [exact H|].
  exact (points_scatter_columns true [(1, 1, 1); (-1, 2, 0)] black [] H).
Defined.

(** X8.  The short polygons.  A [Polygon3D] without vertices draws nothing
    and does not fail (an empty [Points3D] does); with one vertex it draws
    one edge from the vertex to itself; with two vertices it draws the
    same segment twice, once in each direction. *)
Theorem polygon_short (d : bool) (c : color) (v w : vector) (log : list call) :
  draw_object d (Polygon3D [] c) log = (Return tt, log) /\
  draw_object d (Points3D [] c) log = (Raise not_enough_values, log) /\
  draw_object d (Polygon3D [v] c) log = (Return tt, log ++ [edge c (v, v)]) /\
  draw_object d (Polygon3D [v; w] c) log
    = (Return tt, log ++ [edge c (v, w); edge c (w, v)]).
Proof.
  split; [reflexivity|]. split; [reflexivity|].
  split.
  - apply (draw_polygon_emits d [v] c log).
  - apply (draw_polygon_emits d [v; w] c log).
Qed.

(** ** Saving and showing *)

Lemma drawing_not_final l :
  forallb is_drawing l = true -> existsb shows_or_saves l = false.
Proof.
  induction l as [|c l IH]; simpl; [reflexivity|].
  intros H. apply andb_true_iff in H as [Hc Hl].
  rewrite (IH Hl). destruct c; try discriminate; reflexivity.
Qed.

Lemma before_loop_not_final kw rx ry rz :
  existsb shows_or_saves
    (setup_calls kw ++ range_calls rx ry rz ++ axes_calls kw rx ry rz
     ++ origin_calls kw) = false.
Proof.
  rewrite !existsb_app. unfold setup_calls, view_calls, axes_calls, origin_calls.
  destruct (is_some (azim kw) || is_some (elev kw)), (axes kw), (origin kw);
    reflexivity.
Qed.

Lemma after_loop_not_final kw :
  existsb shows_or_saves (limit_calls kw ++ tick_calls kw) = false.
Proof.
  rewrite existsb_app. unfold limit_calls, tick_calls.
  destruct (xlim kw), (ylim kw), (zlim kw),
    (xticks kw), (yticks kw), (zticks kw); reflexivity.
Qed.

(** X9.  A call that fails, for whatever reason, neither saves nor shows
    the figure. *)
Theorem failed_call_never_shows (objects : list object) (kw : kwargs) :
  raised (draw3d objects kw) <> None ->
  existsb shows_or_saves (snd (draw3d objects kw)) = false.
Proof.
  unfold raised. rewrite draw3d_unfold.
  assert (S : existsb shows_or_saves (setup_calls kw) = false).
  { unfold setup_calls, view_calls.
    destruct (is_some (azim kw) || is_some (elev kw)); reflexivity. }
  destruct (extract_vectors_3D objects) as [extracted|e]; [|intros _; exact S].
  destruct (zip_star (all_vectors extracted (origin kw))) as [[[xs ys] zs]|e];
    [|intros _; exact S].
  cbv zeta.
  pose proof (for_each_draw_drawing (depthshade kw) objects) as D.
  destruct (fst (for_each objects (draw_object (depthshade kw)) []));
    [intros H; contradiction H; reflexivity|].
  intros _. unfold snd at 1.
  rewrite existsb_app, before_loop_not_final, (drawing_not_final _ D).
  reflexivity.
Qed.

Lemma failed_call_never_shows_witness :
  raised (draw3d [Box3D (2, 3, 4); Points3D [] black] defaults) <> None /\
  existsb shows_or_saves
    (snd (draw3d [Box3D (2, 3, 4); Points3D [] black] defaults)) = false.
Proof.
  assert (H : raised (draw3d [Box3D (2, 3, 4); Points3D [] black] defaults)
              <> None) by (vm_compute; discriminate).
  split; [exact H|].
  exact (failed_call_never_shows [Box3D (2, 3, 4); Points3D [] black] defaults H).
Defined.

(** X10.  A call that completes shows the figure once, as its last step.
    It saves the figure, once and right before showing it, exactly when
    [save_as] is a non-empty string; [save_as=None] and [save_as=''] save
    nothing. *)
Theorem completed_call_saves_then_shows (objects : list object) (kw : kwargs) :
  raised (draw3d objects kw) = None ->
  exists earlier,
    existsb shows_or_saves earlier = false /\
    snd (draw3d objects kw) =
      earlier
      ++ match save_as kw with
         | Some (String a p) => [Savefig (String a p)]
         | Some EmptyString | None => []
         end
      ++ [Show].
Proof.
  intros H.
  destruct (draw3d_completed objects kw H) as (rx & ry & rz & _ & _ & E).
  pose proof (for_each_draw_drawing (depthshade kw) objects) as D.
  exists ((setup_calls kw ++ range_calls rx ry rz ++ axes_calls kw rx ry rz
           ++ origin_calls kw)
          ++ snd (for_each objects (draw_object (depthshade kw)) [])
          ++ limit_calls kw ++ tick_calls kw).
  split.
  - rewrite existsb_app, before_loop_not_final.
    rewrite existsb_app, (drawing_not_final _ D), after_loop_not_final.
    reflexivity.
  - rewrite E. unfold save_calls.
    repeat rewrite <- app_assoc.
    destruct (save_as kw) as [[|a p]|]; reflexivity.
Qed.

Lemma completed_call_saves_then_shows_witness :
  raised (draw3d [Box3D (2, 3, 4)] defaults) = None /\
  exists earlier,
    existsb shows_or_saves earlier = false /\
    snd (draw3d [Box3D (2, 3, 4)] defaults) = earlier ++ [] ++ [Show].
Proof.
  split; [reflexivity|].
  exact (completed_call_saves_then_shows [Box3D (2, 3, 4)] defaults eq_refl).
Defined.

(** ** Counting what is drawn *)

Lemma filter_drawing_all l :
  forallb is_drawing l = true -> filter is_drawing l = l.
Proof.
  induction l as [|c l IH]; simpl; [reflexivity|].
  intros H. apply andb_true_iff in H as [Hc Hl].
  rewrite Hc, (IH Hl). reflexivity.
Qed.

(** An object that is drawn takes [drawing_count] calls. *)
Lemma draw_object_count d obj :
  fst (draw_object d obj []) = Return tt ->
  List.length (snd (draw_object d obj [])) = drawing_count obj.
Proof.
  destruct obj as [vs c|vs c|[[? ?] ?] [[? ?] ?] c|[[? ?] ?] [[? ?] ?] c ls
                  |[[? ?] ?]|r]; intros H.
  - rewrite (draw_polygon_emits d vs c []). simpl.
    rewrite length_map. apply polygon_edges_length.
  - destruct vs; [discriminate H | reflexivity].
  - reflexivity.
  - reflexivity.
  - reflexivity.
  - discriminate H.
Qed.

Lemma draw_loop_count d objects :
  fst (for_each objects (draw_object d) []) = Return tt ->
  List.length (snd (for_each objects (draw_object d) []))
    = list_sum (map drawing_count objects).
Proof.
  induction objects as [|obj rest IH]; [reflexivity|].
  rewrite for_each_draw_cons.
  destruct (fst (draw_object d obj [])) as [[]|e] eqn:E; [|discriminate].
  simpl fst. simpl snd. intros H.
  rewrite length_app, (IH H), (draw_object_count d obj E). reflexivity.
Qed.

(** X11.  A call that completes makes one drawing call per polygon vertex,
    one per [Points3D], [Arrow3D] and [Segment3D] and nine per [Box3D],
    besides the three axis lines (when [axes] is set) and the origin
    marker (when [origin] is set). *)
Theorem drawing_calls_count (objects : list object) (kw : kwargs) :
  raised (draw3d objects kw) = None ->
  List.length (filter is_drawing (snd (draw3d objects kw))) =
    ((if axes kw then 3 else 0) + (if origin kw then 1 else 0)
     + list_sum (map drawing_count objects))%nat.
Proof.
  intros H.
  destruct (draw3d_completed objects kw H) as (rx & ry & rz & _ & L & ->).
  pose proof (for_each_draw_drawing (depthshade kw) objects) as D.
  rewrite !filter_app, !length_app, (filter_drawing_all _ D).
  rewrite (draw_loop_count _ _ L).
  unfold setup_calls, view_calls, axes_calls, origin_calls, limit_calls,
    tick_calls, save_calls.
  destruct (is_some (azim kw) || is_some (elev kw)), (axes kw), (origin kw);
    destruct (xlim kw), (ylim kw), (zlim kw);
    (destruct (xticks kw), (yticks kw), (zticks kw));
    (destruct (save_as kw) as [[|a p]|]); simpl; lia.
Qed.

Lemma drawing_calls_count_witness :
  raised (draw3d [Box3D (2, 3, 4); Polygon3D [(1, 0, 0); (0, 1, 0); (0, 0, 1)] blue]
            defaults) = None /\
  List.length
    (filter is_drawing
       (snd (draw3d [Box3D (2, 3, 4);
                     Polygon3D [(1, 0, 0); (0, 1, 0); (0, 0, 1)] blue]
               defaults))) = 16%nat.
Proof.
  split; [reflexivity|].
  exact (drawing_calls_count
           [Box3D (2, 3, 4); Polygon3D [(1, 0, 0); (0, 1, 0); (0, 0, 1)] blue]
           defaults eq_refl).
Defined.

(** ** More on the plot ranges *)

Lemma py_extremes_sign cs : py_min 0 cs <= 0 /\ 0 <= py_max 0 cs.
Proof. split; [apply py_min_le_first | apply py_max_ge_first]. Qed.

(** The range is the one that a padding of 5% of the extent gives, whether
    or not the extent is zero. *)
Lemma plot_range_five_percent cs :
  range_eq (plot_range cs)
    (Qmin (py_min 0 cs - 0.05 * (py_max 0 cs - py_min 0 cs)) (-2),
     Qmax (py_max 0 cs + 0.05 * (py_max 0 cs - py_min 0 cs)) 2).
Proof.
  unfold plot_range; cbv zeta. destruct (py_extremes_sign cs) as [Hlo Hhi].
  set (hi := py_max 0 cs) in *. set (lo := py_min 0 cs) in *.
  unfold range_eq; simpl fst; simpl snd.
  destruct (Qeq_bool (hi - lo) 0) eqn:E; simpl negb; cbv iota.
  - apply Qeq_bool_eq in E.
    split; (eapply Qeq_trans; [apply py_min_pair || apply py_max_pair|]).
    + rewrite !Q.min_r by lra. reflexivity.
    + rewrite !Q.max_r by lra. reflexivity.
  - split; [apply py_min_pair | apply py_max_pair].
Qed.

(** X12.  The unit padding of lines 127-129 never reaches the result.  An
    axis has zero extent only when all its coordinates are zero, and its
    plot range is then exactly (-2, 2); in every case the range is the one
    that a padding of 5% of the extent gives. *)
Theorem unit_padding_never_shows (cs : list number) :
  range_eq (plot_range cs)
    (Qmin (py_min 0 cs - 0.05 * (py_max 0 cs - py_min 0 cs)) (-2),
     Qmax (py_max 0 cs + 0.05 * (py_max 0 cs - py_min 0 cs)) 2) /\
  (py_max 0 cs - py_min 0 cs == 0 ->
   (forall c, In c cs -> c == 0) /\ plot_range cs = (-2, 2)).
Proof.
  split; [apply plot_range_five_percent|].
  intros Z. destruct (py_extremes_sign cs) as [Hlo Hhi]. split.
  - intros c Hc.
    pose proof (py_max_ge_in cs 0 c Hc). pose proof (py_min_le_in cs 0 c Hc).
    lra.
  - unfold plot_range; cbv zeta.
    rewrite (Qeq_eq_bool _ _ Z). simpl negb; cbv iota.
    set (hi := py_max 0 cs) in *. set (lo := py_min 0 cs) in *.
    unfold py_min, py_max; simpl fold_left.
    destruct (Qcompare_spec (-2) (lo - 1)); try lra.
    destruct (Qcompare_spec 2 (hi + 1)); try lra.
    reflexivity.
Qed.








Lemma py_max_opp cs : py_max 0 (map Qopp cs) == - py_min 0 cs.
Proof.
  apply Qle_antisym.
  - destruct (py_max_in (map Qopp cs) 0) as [E|Hin].
    + rewrite <- E. pose proof (py_min_le_first cs 0). lra.
    + apply in_map_iff in Hin as (c & Ec & Hc). rewrite <- Ec.
      pose proof (py_min_le_in cs 0 c Hc). lra.
  - destruct (py_min_in cs 0) as [E|Hin].
    + rewrite <- E. pose proof (py_max_ge_first (map Qopp cs) 0). lra.
    + apply py_max_ge_in, in_map, Hin.
Qed.

Lemma py_min_opp cs : py_min 0 (map Qopp cs) == - py_max 0 cs.
Proof.
  apply Qle_antisym.
  - destruct (py_max_in cs 0) as [E|Hin].
    + rewrite <- E. pose proof (py_min_le_first (map Qopp cs) 0). lra.
    + apply py_min_le_in, in_map, Hin.
  - destruct (py_min_in (map Qopp cs) 0) as [E|Hin].
    + rewrite <- E. pose proof (py_max_ge_first cs 0). lra.
    + apply in_map_iff in Hin as (c & Ec & Hc). rewrite <- Ec.
      pose proof (py_max_ge_in cs 0 c Hc). lra.
Qed.

(** X14.  The plot range is symmetric: negating every coordinate of an
    axis mirrors its range about zero. *)
Theorem plot_range_mirror (cs : list number) :
  range_eq (plot_range (map Qopp cs)) (mirror (plot_range cs)).
Proof.
  destruct (plot_range_five_percent cs) as [L U].
  destruct (plot_range_five_percent (map Qopp cs)) as [L' U'].
  pose proof (py_max_opp cs) as HM. pose proof (py_min_opp cs) as Hm.
  unfold range_eq, mirror. simpl fst in *; simpl snd in *.
  rewrite L', U', L, U.
  set (hi := py_max 0 cs) in *. set (lo := py_min 0 cs) in *.
  set (hi' := py_max 0 (map Qopp cs)) in *.
  set (lo' := py_min 0 (map Qopp cs)) in *.
  split.
  - destruct (Q.min_spec (lo' - 0.05 * (hi' - lo')) (-2)) as [[? ->]|[? ->]];
      destruct (Q.max_spec (hi + 0.05 * (hi - lo)) 2) as [[? ->]|[? ->]]; lra.
  - destruct (Q.max_spec (hi' + 0.05 * (hi' - lo')) 2) as [[? ->]|[? ->]];
      destruct (Q.min_spec (lo - 0.05 * (hi - lo)) (-2)) as [[? ->]|[? ->]]; lra.
Qed.

(** ** The axis lines *)

(** X15.  In a call that completes, the line segments drawn are the axis
    lines (when [axes] is set) followed by those of the objects.  The axis
    lines span the computed plot ranges, whatever limits are passed in
    [xlim], [ylim] and [zlim]; each passes through the origin and reaches
    past the coordinate of every extracted vector on its axis. *)
Theorem axis_lines_span_ranges (objects : list object) (kw : kwargs) :
  raised (draw3d objects kw) = None ->
  exists rx ry rz,
    plot_ranges objects (origin kw) = Return (rx, ry, rz) /\
    segments (snd (draw3d objects kw)) =
      (if axes kw
       then [((fst rx, 0, 0), (snd rx, 0, 0));
             ((0, fst ry, 0), (0, snd ry, 0));
             ((0, 0, fst rz), (0, 0, snd rz))]
       else [])
      ++ segments (snd (draw_loop (depthshade kw) objects)) /\
    (within rx 0 /\ within ry 0 /\ within rz 0) /\
    forall v, In v (flat_map coordinates objects) ->
      within rx (xcoord v) /\ within ry (ycoord v) /\ within rz (zcoord v).
Proof.
  intros H.
  destruct (draw3d_completed objects kw H) as (rx & ry & rz & HR & _ & ->).
  exists rx, ry, rz. split; [exact HR|]. split.
  - rewrite segments_completed. unfold axes_calls, draw_loop.
    destruct (axes kw); reflexivity.
  - rewrite plot_ranges_unfold in HR.
    destruct (first_unrecognized objects); [discriminate|]. cbv zeta in HR.
    assert (Hin : forall v, In v (flat_map coordinates objects) ->
                    In v (all_vectors (flat_map coordinates objects) (origin kw))).
    { intros v Hv. unfold all_vectors.
      destruct (origin kw); [apply in_or_app; left|]; exact Hv. }
    set (vs := all_vectors (flat_map coordinates objects) (origin kw)) in *.
    destruct (is_nil vs); [discriminate|]. injection HR as <- <- <-.
    destruct (plot_range_covers (map xcoord vs)) as (X1 & X2 & X3).
    destruct (plot_range_covers (map ycoord vs)) as (Y1 & Y2 & Y3).
    destruct (plot_range_covers (map zcoord vs)) as (Z1 & Z2 & Z3).
    split; [unfold within; repeat split; lra|].
    intros v Hv. apply Hin in Hv.
    split; [|split]; [apply X3 | apply Y3 | apply Z3]; apply in_map, Hv.
Qed.

Lemma axis_lines_span_ranges_witness :
  raised (draw3d [Box3D (2, 3, 4)]
            (with_limits (Some (-5, 5)) (Some (-5, 5)) (Some (0, 10)) defaults))
    = None /\
  exists rx ry rz,
    plot_ranges [Box3D (2, 3, 4)] true = Return (rx, ry, rz) /\
    segments (snd (draw3d [Box3D (2, 3, 4)]
            (with_limits (Some (-5, 5)) (Some (-5, 5)) (Some (0, 10)) defaults)))
      = [((fst rx, 0, 0), (snd rx, 0, 0));
         ((0, fst ry, 0), (0, snd ry, 0));
         ((0, 0, fst rz), (0, 0, snd rz))]
        ++ segments (snd (draw_loop false [Box3D (2, 3, 4)])) /\
    (within rx 0 /\ within ry 0 /\ within rz 0) /\
    forall v, In v [(2, 3, 4)] ->
      within rx (xcoord v) /\ within ry (ycoord v) /\ within rz (zcoord v).
Proof.
  split; [reflexivity|].
  exact (axis_lines_span_ranges [Box3D (2, 3, 4)]
           (with_limits (Some (-5, 5)) (Some (-5, 5)) (Some (0, 10)) defaults)
           eq_refl).
Defined.

(** ** Everything drawn is within the plot ranges *)

Lemma draw_loop_in d objects c :
  In c (snd (for_each objects (draw_object d) [])) ->
  exists obj, In obj objects /\ In c (snd (draw_object d obj [])).
Proof.
  induction objects as [|obj rest IH]; [contradiction|].
  rewrite for_each_draw_cons.
  destruct (fst (draw_object d obj [])); simpl snd; intros H.
  - apply in_app_or in H as [H|H].
    + exists obj. split; [left; reflexivity | exact H].
    + destruct (IH H) as (o & Ho & Hc). exists o. split; [right|]; assumption.
  - exists obj. split; [left; reflexivity | exact H].
Qed.

Lemma polygon_edges_in vertices p q :
  In (p, q) (polygon_edges vertices) -> In p vertices /\ In q vertices.
Proof.
  unfold polygon_edges; cbv zeta. intros H.
  apply in_map_iff in H as (i & E & Hi). apply in_seq in Hi.
  injection E as <- <-.
  split; apply nth_In; [lia|]. apply Nat.mod_upper_bound. lia.
Qed.

Lemma inside_eq rx ry rz v w : vector_eq v w -> inside rx ry rz w -> inside rx ry rz v.
Proof.
  unfold vector_eq, inside, within. intros (Ex & Ey & Ez) (Hx & Hy & Hz).
  rewrite Ex, Ey, Ez. auto.
Qed.

(** What an object draws lies where its vectors and the origin lie. *)
Lemma object_points_inside d obj rx ry rz :
  within rx 0 -> within ry 0 -> within rz 0 ->
  (forall v, In v (coordinates obj) -> inside rx ry rz v) ->
  forall c p, In c (snd (draw_object d obj [])) -> In p (drawn_points c) ->
    inside rx ry rz p.
Proof.
  intros X0 Y0 Z0 Hv c p Hc Hp.
  destruct obj as [vs k|vs k|tip tail k|s e k ls|[[x y] z]|r].
  - rewrite (draw_polygon_emits d vs k []) in Hc. simpl in Hc.
    apply in_map_iff in Hc as ([[[x1 y1] z1] [[x2 y2] z2]] & <- & Hin).
    apply polygon_edges_in in Hin as [H1 H2].
    simpl in Hp. destruct Hp as [<-|[<-|[]]]; apply Hv; assumption.
  - destruct vs as [|v vs]; [contradiction|].
    simpl in Hc. destruct Hc as [<-|[]].
    change (In p (combine (combine (map xcoord (v :: vs)) (map ycoord (v :: vs)))
                          (map zcoord (v :: vs)))) in Hp.
    rewrite combine_columns in Hp. apply Hv, Hp.
  - destruct tip as [[px py] pz], tail as [[tx ty] tz].
    simpl in Hc. destruct Hc as [<-|[]].
    simpl in Hp. destruct Hp as [<-|[<-|[]]].
    + apply Hv. right; left; reflexivity.
    + apply (inside_eq _ _ _ _ (px, py, pz)); [|apply Hv; left; reflexivity].
      unfold vector_eq, vector_add, xcoord, ycoord, zcoord; simpl.
      repeat split; ring.
  - destruct s as [[s0 s1] s2], e as [[e0 e1] e2].
    simpl in Hc. destruct Hc as [<-|[]].
    simpl in Hp. destruct Hp as [<-|[<-|[]]]; apply Hv; simpl; auto.
  - assert (B : inside rx ry rz (x, y, z)) by (apply Hv; left; reflexivity).
    destruct B as (Bx & By & Bz). simpl in Bx, By, Bz.
    simpl in Hc.
    repeat (destruct Hc as [<-|Hc];
            [simpl in Hp; destruct Hp as [<-|[<-|[]]];
             unfold inside; simpl; auto|]).
    contradiction.
  - contradiction.
Qed.

(** X16.  Unless all three limits are overridden, everything that a
    completed call draws is within the final limits of the axes: the ends
    of every line (axis lines, polygon and box edges, segments), the
    points of every scatter and the tail and the head of every arrow. *)
Theorem everything_drawn_is_inside (objects : list object) (kw : kwargs) :
  raised (draw3d objects kw) = None ->
  limit_calls kw = [] ->
  exists rx ry rz,
    final_xlim (snd (draw3d objects kw)) = Some rx /\
    final_ylim (snd (draw3d objects kw)) = Some ry /\
    final_zlim (snd (draw3d objects kw)) = Some rz /\
    forall c p,
      In c (snd (draw3d objects kw)) -> In p (drawn_points c) ->
      inside rx ry rz p.
Proof.
  intros H HL.
  destruct (draw3d_completed objects kw H) as (rx & ry & rz & HR & _ & ->).
  pose proof (for_each_draw_drawing (depthshade kw) objects) as HD.
  exists rx, ry, rz.
  unfold final_xlim, final_ylim, final_zlim.
  rewrite (last_set_completed xlim_set kw rx ry rz _) by (quiet_setter || exact HD).
  rewrite (last_set_completed ylim_set kw rx ry rz _) by (quiet_setter || exact HD).
  rewrite (last_set_completed zlim_set kw rx ry rz _) by (quiet_setter || exact HD).
  rewrite HL.
  assert (T : tick_calls kw = [] \/
              exists xt yt zt, tick_calls kw = [SetXticks xt; SetYticks yt; SetZticks zt]).
  { unfold tick_calls. destruct (xticks kw), (yticks kw), (zticks kw); eauto. }
  split; [|split; [|split]].
  - destruct T as [->|(xt & yt & zt & ->)]; destruct rx; reflexivity.
  - destruct T as [->|(xt & yt & zt & ->)]; destruct ry; reflexivity.
  - destruct T as [->|(xt & yt & zt & ->)]; destruct rz; reflexivity.
  - rewrite plot_ranges_unfold in HR.
    destruct (first_unrecognized objects); [discriminate|]. cbv zeta in HR.
    assert (Hin : forall v, In v (flat_map coordinates objects) ->
                    In v (all_vectors (flat_map coordinates objects) (origin kw))).
    { intros v Hv. unfold all_vectors.
      destruct (origin kw); [apply in_or_app; left|]; exact Hv. }
    set (vs := all_vectors (flat_map coordinates objects) (origin kw)) in *.
    destruct (is_nil vs); [discriminate|]. injection HR as <- <- <-.
    destruct (plot_range_covers (map xcoord vs)) as (X1 & X2 & X3).
    destruct (plot_range_covers (map ycoord vs)) as (Y1 & Y2 & Y3).
    destruct (plot_range_covers (map zcoord vs)) as (Z1 & Z2 & Z3).
    set (rx := plot_range (map xcoord vs)) in *.
    set (ry := plot_range (map ycoord vs)) in *.
    set (rz := plot_range (map zcoord vs)) in *.
    clearbody rx ry rz.
    assert (X0 : within rx 0) by (unfold within; lra).
    assert (Y0 : within ry 0) by (unfold within; lra).
    assert (Z0 : within rz 0) by (unfold within; lra).
    assert (V : forall v, In v (flat_map coordinates objects) -> inside rx ry rz v).
    { intros v Hv. apply Hin in Hv.
      split; [|split]; [apply X3 | apply Y3 | apply Z3]; apply in_map, Hv. }
    intros c p Hc Hp.
    repeat (apply in_app_or in Hc as [Hc|Hc]).
    + unfold setup_calls, view_calls in Hc.
      destruct (is_some (azim kw) || is_some (elev kw)); simpl in Hc;
        repeat (destruct Hc as [<-|Hc]; [contradiction|]); contradiction.
    + simpl in Hc.
      repeat (destruct Hc as [<-|Hc]; [contradiction|]); contradiction.
    + unfold axes_calls in Hc. destruct (axes kw); [|contradiction].
      simpl in Hc.
      repeat (destruct Hc as [<-|Hc];
              [simpl in Hp; destruct Hp as [<-|[<-|[]]];
               unfold inside, within, xcoord, ycoord, zcoord in *; simpl;
               repeat split; lra|]).
      contradiction.
    + unfold origin_calls in Hc. destruct (origin kw); [|contradiction].
      destruct Hc as [<-|[]]. simpl in Hp. destruct Hp as [<-|[]].
      unfold inside; simpl; auto.
    + apply draw_loop_in in Hc as (obj & Hobj & Hc).
      apply (object_points_inside (depthshade kw) obj rx ry rz X0 Y0 Z0) with (c := c);
        try assumption.
      intros v Hv. apply V, in_flat_map. exists obj. split; assumption.
    + contradiction.
    + destruct T as [T|(xt & yt & zt & T)]; rewrite T in Hc; simpl in Hc;
        repeat (destruct Hc as [<-|Hc]; [contradiction|]); contradiction.
    + unfold save_calls in Hc. destruct (save_as kw) as [[|a s]|]; simpl in Hc;
        repeat (destruct Hc as [<-|Hc]; [contradiction|]); contradiction.
    + destruct Hc as [<-|[]]. contradiction.
Qed.

Lemma everything_drawn_is_inside_witness :
  raised (draw3d [Box3D (2, 3, 4); Arrow3D (-1, 0, 5) (0, 0, 0) red] defaults)
    = None /\
  limit_calls defaults = [] /\
  exists rx ry rz,
    final_xlim (snd (draw3d [Box3D (2, 3, 4); Arrow3D (-1, 0, 5) (0, 0, 0) red]
                       defaults)) = Some rx /\
    final_ylim (snd (draw3d [Box3D (2, 3, 4); Arrow3D (-1, 0, 5) (0, 0, 0) red]
                       defaults)) = Some ry /\
    final_zlim (snd (draw3d [Box3D (2, 3, 4); Arrow3D (-1, 0, 5) (0, 0, 0) red]
                       defaults)) = Some rz /\
    forall c p,
      In c (snd (draw3d [Box3D (2, 3, 4); Arrow3D (-1, 0, 5) (0, 0, 0) red]
                   defaults)) ->
      In p (drawn_points c) -> inside rx ry rz p.
Proof.
  split; [reflexivity|]. split; [reflexivity|].
  exact (everything_drawn_is_inside
           [Box3D (2, 3, 4); Arrow3D (-1, 0, 5) (0, 0, 0) red] defaults
           eq_refl eq_refl).
Defined.
